(** * go-otp-auth-service: OTP login flow, shallow embedding and properties

    The development follows the Go packages of the service:
    - [time]       : the fragment of Go's [time] package the service uses;
    - [model]      : [internal/model] (OTP and User records);
    - [database]   : [internal/database/inmemory.go] (user store, OTP store,
                     the hard-wired rate limiter);
    - [middleware] : [internal/middleware/rate_limiter.go] and the token part
                     of [internal/middleware/auth.go];
    - [otp]        : [pkg/otp/generator.go];
    - [jwt]        : the part of github.com/golang-jwt/jwt/v5 the service
                     calls (an external library, modelled structurally);
    - [auth]       : [pkg/auth] (repository, service, handler).

    Every call of [time.Now()], [uuid.New()] and every read of
    [crypto/rand] is an explicit argument of the function that performs it. *)

From Stdlib Require Import ZArith List String Ascii Lia.
From Stdlib.Strings Require Import Byte.
From stdpp Require Import gmap strings list fin_maps sorting.

Open Scope Z_scope.

(** ** Go errors *)

(** Sentinel errors of the packages, [fmt.Errorf] with and without [%w]. *)
Inductive error : Type :=
| ErrNotFound                 (* database.ErrNotFound *)
| ErrAlreadyExists            (* database.ErrAlreadyExists *)
| ErrUserNotFound             (* auth.ErrUserNotFound *)
| ErrRateLimitExceeded        (* auth.ErrRateLimitExceeded *)
| ErrInvalidOTP               (* auth.ErrInvalidOTP *)
| ErrUserRegistration         (* auth.ErrUserRegistration *)
| ErrJWTGeneration            (* auth.ErrJWTGeneration *)
| Errorf (msg : string)       (* errors.New / fmt.Errorf without %w *)
| Wrapf (base : error) (msg : string).  (* fmt.Errorf("%w: ...", base, ...) *)

#[global] Instance error_eq_dec : EqDecision error.
Proof. unfold EqDecision, Decision. decide equality; apply string_dec. Defined.

(** [errors.Is]: the error itself or one it wraps. *)
Fixpoint errors_Is (err target : error) : bool :=
  if decide (err = target) then true
  else match err with
       | Wrapf base _ => errors_Is base target
       | _ => false
       end.

(** A Go result pair [(value, error)]. *)
Inductive result (A : Type) : Type :=
| Ok (a : A)
| Err (e : error).
Arguments Ok {A} a.
Arguments Err {A} e.

(** [err.Error()]: the text of an error. *)
Fixpoint error_Error (err : error) : string :=
  match err with
  | ErrNotFound => "not found"
  | ErrAlreadyExists => "already exists"
  | ErrUserNotFound => "user not found"
  | ErrRateLimitExceeded => "rate limit exceeded"
  | ErrInvalidOTP => "invalid or expired OTP"
  | ErrUserRegistration => "failed to register new user"
  | ErrJWTGeneration => "failed to generate JWT token"
  | Errorf msg => msg
  | Wrapf base msg => error_Error base ++ ": " ++ msg
  end.

(** ** Package time *)
Module time.

(** An instant, in nanoseconds since the Unix epoch. *)
Abbreviation Time := Z.
(** [time.Duration] is an int64 count of nanoseconds. *)
Abbreviation Duration := Z.

Definition Nanosecond : Duration := 1.
Definition Second : Duration := 1000000000.
Definition Minute : Duration := 60 * Second.
Definition Hour : Duration := 60 * Minute.

Definition minDuration : Duration := - 2 ^ 63.
Definition maxDuration : Duration := 2 ^ 63 - 1.

(** [t.Sub(u)]: the difference, saturated to the int64 range. *)
Definition Sub (t u : Time) : Duration :=
  Z.max minDuration (Z.min maxDuration (t - u)).

(** [t.Add(d)] *)
Definition Add (t : Time) (d : Duration) : Time := t + d.

(** [t.After(u)] *)
Definition After (t u : Time) : bool := u <? t.

(** [t.Before(u)] *)
Definition Before (t u : Time) : bool := t <? u.

(** [t.Unix()]: whole seconds since the epoch. *)
Definition Unix (t : Time) : Z := t / Second.

(** [time.Unix(sec, 0)] *)
Definition FromUnix (sec : Z) : Time := sec * Second.

(** The zero [time.Time]: January 1, year 1, 00:00 UTC. *)
Definition zeroTime : Time := -62135596800 * Second.

End time.

(** ** Package uuid (github.com/google/uuid) *)

(** A UUID is a 128-bit value; [uuid.New()] results are inputs. *)
Abbreviation UUID := Z.

(** ** Package internal/model *)
Module model.

Record OTP : Type := mkOTP {
  OTP_ID : UUID;
  OTP_PhoneNumber : string;
  OTPCode : string;
  OTP_CreatedAt : time.Time;
  ExpiresAt : time.Time
}.

(** [func (o *OTP) IsExpired() bool { return time.Now().After(o.ExpiresAt) }] *)
Definition IsExpired (now : time.Time) (o : OTP) : bool :=
  time.After now (ExpiresAt o).

Record User : Type := mkUser {
  ID : UUID;
  PhoneNumber : string;
  CreatedAt : time.Time;
  UpdatedAt : time.Time
}.

(** [UserResponse]: the DTO of a user. *)
Record UserResponse : Type := mkUserResponse {
  Resp_ID : UUID;
  Resp_PhoneNumber : string;
  Resp_CreatedAt : time.Time
}.

Definition ToUserResponse (u : User) : UserResponse :=
  {| Resp_ID := ID u;
     Resp_PhoneNumber := PhoneNumber u;
     Resp_CreatedAt := CreatedAt u |}.

End model.

(** ** Package internal/database: the in-memory stores *)
Module database.

(** *** In-memory user store *)
Record InMemoryUserStore : Type := mkUserStore {
  users : gmap Z model.User;
  phoneIndex : gmap string Z
}.

Definition NewInMemoryUserStore : InMemoryUserStore :=
  {| users := ∅; phoneIndex := ∅ |}.

(** [CreateUser]; [id] is the value of [uuid.New()], [t1] and [t2] the two
    readings of [time.Now()]. *)
Definition CreateUser (s : InMemoryUserStore) (user : model.User)
    (id : UUID) (t1 t2 : time.Time)
  : result model.User * InMemoryUserStore :=
  match phoneIndex s !! model.PhoneNumber user with
  | Some _ =>
      (Err (Wrapf ErrAlreadyExists
              ("user with phone number " ++ model.PhoneNumber user)), s)
  | None =>
      let user' := {| model.ID := id;
                      model.PhoneNumber := model.PhoneNumber user;
                      model.CreatedAt := t1;
                      model.UpdatedAt := t2 |} in
      (Ok user',
       {| users := <[id := user']> (users s);
          phoneIndex := <[model.PhoneNumber user := id]> (phoneIndex s) |})
  end.

Definition GetUserByPhoneNumber (s : InMemoryUserStore) (phoneNumber : string)
  : result model.User :=
  match phoneIndex s !! phoneNumber with
  | None => Err (Wrapf ErrNotFound ("user with phone number " ++ phoneNumber))
  | Some id =>
      match users s !! id with
      | None => Err (Wrapf ErrNotFound "user with ID (from phone index)")
      | Some user => Ok user
      end
  end.

(** *** In-memory OTP store, keyed by phone number *)
Record InMemoryOTPStore : Type := mkOTPStore {
  otps : gmap string model.OTP
}.

Definition NewInMemoryOTPStore : InMemoryOTPStore := {| otps := ∅ |}.

(** [StoreOTP]; [id] is [uuid.New()], [now] is [time.Now()]. *)
Definition StoreOTP (s : InMemoryOTPStore) (otp : model.OTP)
    (id : UUID) (now : time.Time) : option error * InMemoryOTPStore :=
  let otp' := {| model.OTP_ID := id;
                 model.OTP_PhoneNumber := model.OTP_PhoneNumber otp;
                 model.OTPCode := model.OTPCode otp;
                 model.OTP_CreatedAt := now;
                 model.ExpiresAt := model.ExpiresAt otp |} in
  (None, {| otps := <[model.OTP_PhoneNumber otp := otp']> (otps s) |}).

Definition GetOTP (s : InMemoryOTPStore) (phoneNumber : string)
  : result model.OTP :=
  match otps s !! phoneNumber with
  | None => Err (Wrapf ErrNotFound ("OTP for phone number " ++ phoneNumber))
  | Some otp => Ok otp
  end.

Definition DeleteOTP (s : InMemoryOTPStore) (phoneNumber : string)
  : option error * InMemoryOTPStore :=
  (None, {| otps := delete phoneNumber (otps s) |}).

(** *** In-memory rate limiter of the database package: 3 per 10 minutes *)
Record InMemoryRateLimiter : Type := mkRateLimiter {
  requests : gmap string (list Z)
}.

Definition NewInMemoryRateLimiter : InMemoryRateLimiter := {| requests := ∅ |}.

(** [Allow]; [currentTime] is [time.Now()]. On rejection the map is left
    as it was. *)
Definition Allow (r : InMemoryRateLimiter) (currentTime : time.Time)
    (phoneNumber : string) : bool * InMemoryRateLimiter :=
  let recentRequests :=
    filter (fun t => time.Sub currentTime t <= 10 * time.Minute)
           (default [] (requests r !! phoneNumber)) in
  if decide (Z.of_nat (length recentRequests) >= 3) then (false, r)
  else (true,
        {| requests :=
             <[phoneNumber := recentRequests ++ [currentTime]]> (requests r) |}).

(** *** The remaining methods of the user store *)

Definition GetUserByID (s : InMemoryUserStore) (id : UUID)
  : result model.User :=
  match users s !! id with
  | None => Err (Wrapf ErrNotFound "user with ID")
  | Some user => Ok user
  end.

(** Go's [int] addition and multiplication wrap around in 64 bits. *)
Definition wrap_int (x : Z) : Z := (x + 2 ^ 63) mod 2 ^ 64 - 2 ^ 63.

(** [ListUsers]; [visited] is the sequence in which [range s.users] yields
    the users of the map (Go leaves the order open). The result is the
    page and the total, or [None] when the slice expression
    [filteredUsers[offset:end]] panics (a negative [offset], or [end]
    below [offset]). The error result is always nil. *)
Definition ListUsers (visited : list model.User) (limit offset : Z)
    (search : string) : option (list model.User * Z) :=
  let filteredUsers :=
    filter (fun user : model.User =>
              search = ""%string \/ model.PhoneNumber user = search) visited in
  let total := Z.of_nat (length filteredUsers) in
  if decide (offset >= total) then Some ([], total)
  else
    let end0 := wrap_int (offset + limit) in
    let end_ := if decide (end0 > total) then total else end0 in
    if decide (0 <= offset /\ offset <= end_) then
      Some (take (Z.to_nat (end_ - offset)) (drop (Z.to_nat offset) filteredUsers),
            total)
    else None.

End database.

(** ** Package jwt (github.com/golang-jwt/jwt/v5)

    The library is not part of the repository. The model keeps what the
    service relies on: a token carries a signing method, a claims map and a
    signature over both; [Parse] asks the key function for the key, checks
    the signature with the token's own method and then validates the
    registered time claims. The compact serialization (base64url of JSON) is
    not modelled: a token string is the triple it decodes to. The MAC itself
    and the availability of its hash are parameters. *)
Module jwt.

Inductive HMACAlg : Type := HS256 | HS384 | HS512.

(** A signing method is of type [*SigningMethodHMAC] or of another type
    (RSA, ECDSA, EdDSA, none), known by its [alg] name. *)
Inductive SigningMethod : Type :=
| SigningMethodHMAC (alg : HMACAlg)
| SigningMethodOther (alg : string).

(** Values of a [MapClaims] entry after JSON decoding. *)
Inductive ClaimValue : Type :=
| ClaimString (s : string)
| ClaimNumber (n : Z).

(** What is signed: header and claims. *)
Definition SigningString : Type := SigningMethod * gmap string ClaimValue.

(** A signed token, as [SignedString] returns it and [Parse] receives it. *)
Record SignedToken : Type := mkSignedToken {
  Header : SigningMethod;
  Payload : gmap string ClaimValue;
  Signature : string
}.

(** [*jwt.Token] as [Parse] returns it. *)
Record Token : Type := mkToken {
  Method : SigningMethod;
  Claims : gmap string ClaimValue;
  Valid : bool
}.

Definition ErrTokenUnverifiable : error := Errorf "token is unverifiable".
Definition ErrTokenSignatureInvalid : error := Errorf "token signature is invalid".
Definition ErrSignatureInvalid : error := Errorf "signature is invalid".
Definition ErrTokenInvalidClaims : error := Errorf "token has invalid claims".
Definition ErrTokenExpired : error := Errorf "token is expired".
Definition ErrTokenNotValidYet : error := Errorf "token is not valid yet".
Definition ErrInvalidType : error := Errorf "invalid type for claim".
Definition ErrInvalidKeyType : error := Errorf "key is of invalid type".
Definition ErrHashUnavailable : error :=
  Errorf "the requested hash function is unavailable".

Section WithMAC.

(** [m.Hash.Available()] *)
Variable hash_available : HMACAlg -> bool.
(** The MAC of a signing string under a key, per algorithm. *)
Variable HMAC : HMACAlg -> string -> SigningString -> string.

(** [method.Sign(signingString, key)] with a [[]byte] key. *)
Definition Sign (method : SigningMethod) (signing : SigningString)
    (key : string) : result string :=
  match method with
  | SigningMethodHMAC alg =>
      if hash_available alg then Ok (HMAC alg key signing)
      else Err ErrHashUnavailable
  | SigningMethodOther _ => Err ErrInvalidKeyType
  end.

(** [method.Verify(signingString, sig, key)] with a [[]byte] key. *)
Definition Verify (method : SigningMethod) (signing : SigningString)
    (sig key : string) : option error :=
  match method with
  | SigningMethodHMAC alg =>
      if hash_available alg then
        if decide (sig = HMAC alg key signing) then None
        else Some ErrSignatureInvalid
      else Some ErrHashUnavailable
  | SigningMethodOther _ => Some ErrInvalidKeyType
  end.

(** [jwt.NewWithClaims(method, claims).SignedString(key)] *)
Definition SignedString (method : SigningMethod)
    (claims : gmap string ClaimValue) (key : string) : result SignedToken :=
  match Sign method (method, claims) key with
  | Err e => Err e
  | Ok sig => Ok {| Header := method; Payload := claims; Signature := sig |}
  end.

(** [MapClaims.parseNumericDate]: the number under [key]; a missing claim
    and the number 0 both count as no claim, a string is an error. *)
Definition parseNumericDate (claims : gmap string ClaimValue) (key : string)
  : result (option Z) :=
  match claims !! key with
  | None => Ok None
  | Some (ClaimNumber n) => if decide (n = 0) then Ok None else Ok (Some n)
  | Some (ClaimString _) => Err (Wrapf ErrInvalidType (key ++ " is invalid"))
  end.

(** [verifyExpiresAt] with the claim not required: [now] must lie before
    an [exp] that is there. *)
Definition verifyExpiresAt (now : time.Time) (claims : gmap string ClaimValue)
  : option error :=
  match parseNumericDate claims "exp" with
  | Err e => Some e
  | Ok None => None
  | Ok (Some e) =>
      if time.Before now (time.FromUnix e) then None else Some ErrTokenExpired
  end.

(** [verifyNotBefore] with the claim not required: [now] must not lie
    before an [nbf] that is there. *)
Definition verifyNotBefore (now : time.Time) (claims : gmap string ClaimValue)
  : option error :=
  match parseNumericDate claims "nbf" with
  | Err e => Some e
  | Ok None => None
  | Ok (Some n) =>
      if time.Before now (time.FromUnix n) then Some ErrTokenNotValidYet
      else None
  end.

(** The texts of several errors, one per line ([errors.Join]). *)
Fixpoint join_lines (texts : list string) : string :=
  match texts with
  | [] => ""
  | [text] => text
  | text :: rest => text ++ String (ascii_of_nat 10) (join_lines rest)
  end.

(** The default validator: it checks [exp] and [nbf] ([iat] only when
    asked for, and no audience, issuer or subject is expected) and joins
    the errors it found. *)
Definition Validate (now : time.Time) (claims : gmap string ClaimValue)
  : option error :=
  match omap id [verifyExpiresAt now claims; verifyNotBefore now claims] with
  | [] => None
  | errs => Some (Errorf (join_lines (error_Error <$> errs)))
  end.

(** [jwt.Parse(tokenString, keyFunc)]; [now] is the validator's
    [time.Now()]. Each failure is wrapped as the parser does: the key
    function's under [ErrTokenUnverifiable], the method's under
    [ErrTokenSignatureInvalid], the validator's under
    [ErrTokenInvalidClaims]. *)
Definition Parse (now : time.Time) (tokenString : SignedToken)
    (keyFunc : Token -> result string) : result Token :=
  let token := {| Method := Header tokenString;
                  Claims := Payload tokenString;
                  Valid := false |} in
  match keyFunc token with
  | Err e =>
      Err (Wrapf (Wrapf ErrTokenUnverifiable "error while executing keyfunc")
                 (error_Error e))
  | Ok key =>
      match Verify (Method token) (Header tokenString, Payload tokenString)
                   (Signature tokenString) key with
      | Some e => Err (Wrapf ErrTokenSignatureInvalid (error_Error e))
      | None =>
          match Validate now (Claims token) with
          | Some e => Err (Wrapf ErrTokenInvalidClaims (error_Error e))
          | None => Ok {| Method := Method token;
                          Claims := Claims token;
                          Valid := true |}
          end
      end
  end.

End WithMAC.

End jwt.

(** ** Package internal/middleware: the configurable rate limiter *)
Module middleware.

Record InMemoryRateLimiter : Type := mkRateLimiter {
  requests : gmap string (list Z);
  maxReq : Z;
  timeWindow : time.Duration
}.

Definition NewInMemoryRateLimiter (maxReq : Z) (timeWindow : time.Duration)
  : InMemoryRateLimiter :=
  {| requests := ∅; maxReq := maxReq; timeWindow := timeWindow |}.

Definition set_requests (r : InMemoryRateLimiter) (m : gmap string (list Z))
  : InMemoryRateLimiter :=
  {| requests := m; maxReq := maxReq r; timeWindow := timeWindow r |}.

(** The loop of [Allow] and of [cleanup]: keep the instants [t] with
    [currentTime.Sub(t) <= timeWindow]. *)
Definition recent (r : InMemoryRateLimiter) (currentTime : time.Time)
    (ts : list Z) : list Z :=
  filter (fun t => time.Sub currentTime t <= timeWindow r) ts.

(** [Allow]; [currentTime] is [time.Now()]. *)
Definition Allow (r : InMemoryRateLimiter) (currentTime : time.Time)
    (key : string) : bool * InMemoryRateLimiter :=
  let recentRequests :=
    recent r currentTime (default [] (requests r !! key)) in
  if decide (Z.of_nat (length recentRequests) >= maxReq r) then
    (false, set_requests r (<[key := recentRequests]> (requests r)))
  else
    (true,
     set_requests r (<[key := recentRequests ++ [currentTime]]> (requests r))).

(** One round of the loop of [cleanup]; [currentTime] is its [time.Now()].
    Every key keeps its recent instants, a key left with none is deleted. *)
Definition cleanup (r : InMemoryRateLimiter) (currentTime : time.Time)
  : InMemoryRateLimiter :=
  set_requests r
    (omap (fun timestamps =>
             match recent r currentTime timestamps with
             | [] => None
             | recentTimestamps => Some recentTimestamps
             end) (requests r)).

(** *** OTPRateLimiter: the Gin middleware in front of /otp/send *)

(** An aborted or finished request: status code and message. *)
Inductive Response : Type :=
| JSON (status : Z) (message : string).

Definition StatusOK : Z := 200.
Definition StatusBadRequest : Z := 400.
Definition StatusUnauthorized : Z := 401.
Definition StatusTooManyRequests : Z := 429.
Definition StatusInternalServerError : Z := 500.

(** [OTPRateLimiter(store)]; [bind] is the outcome of [c.ShouldBindJSON(&req)]
    (the phone number of the request, or the binding error), [now] is the
    [time.Now()] of [store.Allow]. The result is the aborting response or
    the request stored under "otp_request" for the next handler. *)
Definition OTPRateLimiter (store : InMemoryRateLimiter) (now : time.Time)
    (bind : result string) : (Response + string) * InMemoryRateLimiter :=
  match bind with
  | Err _ => (inl (JSON StatusBadRequest "Invalid request"), store)
  | Ok phoneNumber =>
      let '(ok, store') := Allow store now phoneNumber in
      if ok then (inr phoneNumber, store')
      else (inl (JSON StatusTooManyRequests
                   "You have made too many requests. Please try again after rate limit time."),
            store')
  end.

(** *** AuthMiddleware: JWT authentication

    The model starts where [tokenString] has been taken out of the
    Authorization header. *)

Inductive AuthOutcome : Type :=
| Abort (resp : Response)          (* c.AbortWithStatusJSON *)
| Next (user : model.User)         (* c.Set(ContextKeyUser, user); c.Next() *)
| Panic.                           (* a failed type assertion on a claim *)

Section WithLibraries.

Variable hash_available : jwt.HMACAlg -> bool.
Variable HMAC : jwt.HMACAlg -> string -> jwt.SigningString -> string.
(** [uuid.Parse] *)
Variable uuid_Parse : string -> option Z.

(** The key function given to [jwt.Parse]. *)
Definition keyFunc (jwtSecret : string) (token : jwt.Token) : result string :=
  match jwt.Method token with
  | jwt.SigningMethodHMAC _ => Ok jwtSecret
  | jwt.SigningMethodOther _ => Err (Errorf "unexpected signing method")
  end.

Definition AuthMiddleware (jwtSecret : string) (now : time.Time)
    (tokenString : jwt.SignedToken) : AuthOutcome :=
  match jwt.Parse hash_available HMAC now tokenString (keyFunc jwtSecret) with
  | Err err =>
      Abort (JSON StatusUnauthorized ("Invalid token: " ++ error_Error err))
  | Ok token =>
      if jwt.Valid token then
        match jwt.Claims token !! "sub"%string with
        | Some (jwt.ClaimString sub) =>
            match uuid_Parse sub with
            | None => Abort (JSON StatusUnauthorized "Invalid user ID in token")
            | Some userID =>
                match jwt.Claims token !! "phone"%string with
                | Some (jwt.ClaimString phoneNumber) =>
                    Next {| model.ID := userID;
                            model.PhoneNumber := phoneNumber;
                            model.CreatedAt := time.zeroTime;
                            model.UpdatedAt := time.zeroTime |}
                | _ => Panic
                end
            end
        | _ => Panic
        end
      else Abort (JSON StatusUnauthorized "Invalid token")
  end.

End WithLibraries.

(** *** AuthMiddleware: the Authorization header *)

(** [strings.Split(s, " ")]: the pieces of [s] between single spaces. *)
Fixpoint Split_space (s : string) : list string :=
  match s with
  | EmptyString => [EmptyString]
  | String c s' =>
      if Ascii.eqb c " " then EmptyString :: Split_space s'
      else match Split_space s' with
           | [] => [String c EmptyString]
           | piece :: pieces => String c piece :: pieces
           end
  end.

(** The first part of [AuthMiddleware]: from the value of
    [c.GetHeader("Authorization")] (empty when the header is absent) to
    the aborting response or [tokenString]. *)
Definition Authorization_token (authHeader : string) : Response + string :=
  if decide (authHeader = ""%string) then
    inl (JSON StatusUnauthorized "Authorization header is required")
  else
    match Split_space authHeader with
    | [scheme; tokenString] =>
        if decide (scheme = "Bearer"%string) then inr tokenString
        else inl (JSON StatusUnauthorized
                    "Authorization header format must be Bearer {token}")
    | _ => inl (JSON StatusUnauthorized
                  "Authorization header format must be Bearer {token}")
    end.

End middleware.


(** ** Package fmt: the one verb the service formats a code with *)
Module fmt.

(** The decimal digit [d], for [0 <= d <= 9]. *)
Definition digit (d : Z) : ascii := ascii_of_N (48 + Z.to_N d).

(** The decimal digits of [n >= 0], most significant first, without leading
    zeros; [fuel] bounds the number of digits (an int64 has at most 19). *)
Fixpoint decimal (fuel : nat) (n : Z) : list ascii :=
  match fuel with
  | O => []
  | S fuel' =>
      if n <? 10 then [digit n]
      else decimal fuel' (n / 10) ++ [digit (n mod 10)]
  end.

(** Left padding with ['0'] up to [width] characters. *)
Definition zero_pad (width : nat) (ds : list ascii) : list ascii :=
  repeat "0"%char (width - length ds)%nat ++ ds.

(** [fmt.Sprintf("%06d", n)]: the sign counts in the width. *)
Definition Sprintf_06d (n : Z) : string :=
  string_of_list_ascii
    (if n <? 0 then "-"%char :: zero_pad 5 (decimal 20 (- n))
     else zero_pad 6 (decimal 20 n)).

End fmt.

(** ** Package pkg/otp: the code generator *)
Module otp.

(** [int(b)] for a byte [b]. *)
Definition int (b : byte) : Z := Z.of_N (Byte.to_N b).

(** The number the three random bytes are folded into:
    [(int(b[0])<<16 | int(b[1])<<8 | int(b[2])) % 1000000]. *)
Definition code_number (b0 b1 b2 : byte) : Z :=
  Z.rem (Z.lor (Z.lor (Z.shiftl (int b0) 16) (Z.shiftl (int b1) 8)) (int b2))
        1000000.

(** [GenerateOTP]; [read] is the outcome of
    [io.ReadAtLeast(rand.Reader, b, 3)]: the three bytes, or the error. *)
Definition GenerateOTP (read : result (byte * byte * byte)) : string :=
  match read with
  | Err _ => "000000"%string
  | Ok (b0, b1, b2) => fmt.Sprintf_06d (code_number b0 b1 b2)
  end.

(** The inputs of the formula: every value of the three random bytes. *)
Definition all_bytes : list byte :=
  Eval vm_compute in omap (fun n => Byte.of_N (Z.to_N n)) (seqZ 0 256).

Definition triples : list (byte * byte * byte) :=
  b0 ← all_bytes; b1 ← all_bytes; b2 ← all_bytes; [(b0, b1, b2)].

(** How many three-byte inputs give the code number [c]. *)
Definition preimage_count (c : Z) : nat :=
  length (filter (fun t : byte * byte * byte =>
                    code_number t.1.1 t.1.2 t.2 = c) triples).

(** The three bytes read as one big-endian number. *)
Definition bytes_value (t : byte * byte * byte) : Z :=
  65536 * int t.1.1 + 256 * int t.1.2 + int t.2.

(** A decimal digit character. *)
Definition is_digit (c : ascii) : Prop :=
  (48 <= N_of_ascii c <= 57)%N.

End otp.


(** ** Package pkg/auth: repository, service and handler *)
Module auth.

(** *** Repository

    [authRepository] over the in-memory stores, as [main] wires it when
    [STORAGE_TYPE] is not "postgres". The user and OTP repositories of
    [pkg/user] and [pkg/otp] forward every call to their store. The rate
    limiter is the one object [main] also hands to the router. *)
Record Repository : Type := mkRepository {
  userStore : database.InMemoryUserStore;
  otpStore : database.InMemoryOTPStore;
  rateLimiter : middleware.InMemoryRateLimiter
}.

Definition set_userStore (r : Repository) (u : database.InMemoryUserStore)
  : Repository :=
  {| userStore := u; otpStore := otpStore r; rateLimiter := rateLimiter r |}.

Definition set_otpStore (r : Repository) (o : database.InMemoryOTPStore)
  : Repository :=
  {| userStore := userStore r; otpStore := o; rateLimiter := rateLimiter r |}.

Definition set_rateLimiter (r : Repository) (l : middleware.InMemoryRateLimiter)
  : Repository :=
  {| userStore := userStore r; otpStore := otpStore r; rateLimiter := l |}.

(** [database.ErrNotFound] is translated to [ErrUserNotFound]. *)
Definition GetUserByPhoneNumber (r : Repository) (phoneNumber : string)
  : result model.User :=
  match database.GetUserByPhoneNumber (userStore r) phoneNumber with
  | Err err => if errors_Is err ErrNotFound then Err ErrUserNotFound else Err err
  | Ok u => Ok u
  end.

Definition CreateUser (r : Repository) (user : model.User)
    (id : UUID) (t1 t2 : time.Time) : result model.User * Repository :=
  let '(res, u') := database.CreateUser (userStore r) user id t1 t2 in
  (res, set_userStore r u').

Definition StoreOTP (r : Repository) (otp : model.OTP)
    (id : UUID) (now : time.Time) : option error * Repository :=
  let '(err, o') := database.StoreOTP (otpStore r) otp id now in
  (err, set_otpStore r o').

Definition GetOTP (r : Repository) (phoneNumber : string) : result model.OTP :=
  database.GetOTP (otpStore r) phoneNumber.

Definition DeleteOTP (r : Repository) (phoneNumber : string)
  : option error * Repository :=
  let '(err, o') := database.DeleteOTP (otpStore r) phoneNumber in
  (err, set_otpStore r o').

Definition AllowOTPRate (r : Repository) (now : time.Time)
    (phoneNumber : string) : bool * Repository :=
  let '(ok, l') := middleware.Allow (rateLimiter r) now phoneNumber in
  (ok, set_rateLimiter r l').

(** *** Service *)

(** What one [SendOTP] call reads from its environment, in call order. *)
Record SendEnv : Type := mkSendEnv {
  allow_now : time.Time;                    (* time.Now() in Allow *)
  rand_read : result (byte * byte * byte);  (* io.ReadAtLeast(rand.Reader, b, 3) *)
  expiry_now : time.Time;                   (* time.Now() for expiresAt *)
  otp_id : UUID;                            (* uuid.New() in StoreOTP *)
  store_now : time.Time                     (* time.Now() in StoreOTP *)
}.

(** What one [VerifyOTPAndAuthenticate] call reads from its environment. *)
Record VerifyEnv : Type := mkVerifyEnv {
  expired_now : time.Time;                  (* time.Now() in IsExpired *)
  user_id : UUID;                           (* uuid.New() in CreateUser *)
  created_now : time.Time;                  (* time.Now() for CreatedAt *)
  updated_now : time.Time;                  (* time.Now() for UpdatedAt *)
  iat_now : time.Time;                      (* time.Now() for "iat" *)
  exp_now : time.Time                       (* time.Now() for "exp" *)
}.

Section WithLibraries.

Variable hash_available : jwt.HMACAlg -> bool.
Variable HMAC : jwt.HMACAlg -> string -> jwt.SigningString -> string.
(** [userID.String()] *)
Variable uuid_String : Z -> string.

Definition SendOTP (r : Repository) (env : SendEnv) (phoneNumber : string)
  : option error * Repository :=
  (* 1. rate limit *)
  let '(ok, r1) := AllowOTPRate r (allow_now env) phoneNumber in
  if negb ok then (Some ErrRateLimitExceeded, r1)
  else
    (* 2. Generate OTP *)
    let otpCode := otp.GenerateOTP (rand_read env) in
    let expiresAt := time.Add (expiry_now env) (2 * time.Minute) in
    (* 3. Store OTP *)
    let otpModel := {| model.OTP_ID := 0;
                       model.OTP_PhoneNumber := phoneNumber;
                       model.OTPCode := otpCode;
                       model.OTP_CreatedAt := time.zeroTime;
                       model.ExpiresAt := expiresAt |} in
    match StoreOTP r1 otpModel (otp_id env) (store_now env) with
    | (Some _, r2) => (Some (Errorf "failed to process OTP request"), r2)
    | (None, r2) => (None, r2)
    end.

Definition generateJWT (jwtSecret : string) (userID : UUID)
    (phoneNumber : string) (t_iat t_exp : time.Time) : result jwt.SignedToken :=
  let claims : gmap string jwt.ClaimValue :=
    <["sub"%string := jwt.ClaimString (uuid_String userID)]>
    (<["phone"%string := jwt.ClaimString phoneNumber]>
    (<["iat"%string := jwt.ClaimNumber (time.Unix t_iat)]>
    (<["exp"%string :=
         jwt.ClaimNumber (time.Unix (time.Add t_exp (time.Hour * 24)))]> ∅))) in
  jwt.SignedString hash_available HMAC
    (jwt.SigningMethodHMAC jwt.HS256) claims jwtSecret.

Definition VerifyOTPAndAuthenticate (jwtSecret : string) (r : Repository)
    (env : VerifyEnv) (phoneNumber receivedOTP : string)
  : result jwt.SignedToken * Repository :=
  (* 1. Retrieve and Validate OTP *)
  match GetOTP r phoneNumber with
  | Err _ => (Err ErrInvalidOTP, r)
  | Ok storedOTP =>
      if negb (String.eqb (model.OTPCode storedOTP) receivedOTP)
         || model.IsExpired (expired_now env) storedOTP
      then (Err ErrInvalidOTP, r)
      else
        (* 2. OTP is valid, delete it to prevent reuse *)
        let '(_, r1) := DeleteOTP r phoneNumber in
        (* 3. Find or Create User *)
        let '(found, r2) :=
          match GetUserByPhoneNumber r1 phoneNumber with
          | Err err =>
              if errors_Is err ErrUserNotFound then
                let newUser := {| model.ID := 0;
                                  model.PhoneNumber := phoneNumber;
                                  model.CreatedAt := time.zeroTime;
                                  model.UpdatedAt := time.zeroTime |} in
                match CreateUser r1 newUser (user_id env)
                                 (created_now env) (updated_now env) with
                | (Err _, r') => (Err ErrUserRegistration, r')
                | (Ok createdUser, r') => (Ok createdUser, r')
                end
              else (Err err, r1)
          | Ok user => (Ok user, r1)
          end in
        match found with
        | Err err => (Err err, r2)
        | Ok user =>
            (* 4. Generate JWT Token *)
            match generateJWT jwtSecret (model.ID user) (model.PhoneNumber user)
                              (iat_now env) (exp_now env) with
            | Err _ => (Err ErrJWTGeneration, r2)
            | Ok token => (Ok token, r2)
            end
        end
  end.

(** *** The service call as a sequence of repository calls

    Every store method holds its store's mutex from entry to return and no
    lock is held across two calls. A call of [VerifyOTPAndAuthenticate] in
    flight is therefore at one of the repository calls below; [step]
    performs that call and the code up to the next one. *)
Inductive VerifyCall : Type :=
| AtGetOTP (phoneNumber receivedOTP : string)   (* s.authRepo.GetOTP *)
| AtDeleteOTP (phoneNumber : string)            (* s.authRepo.DeleteOTP *)
| AtGetUser (phoneNumber : string)              (* s.authRepo.GetUserByPhoneNumber *)
| AtCreateUser (phoneNumber : string)           (* s.authRepo.CreateUser *)
| AtGenerateJWT (user : model.User)             (* s.generateJWT *)
| Returned (res : result jwt.SignedToken).

Definition step (jwtSecret : string) (env : VerifyEnv) (r : Repository)
    (c : VerifyCall) : VerifyCall * Repository :=
  match c with
  | AtGetOTP phoneNumber receivedOTP =>
      match GetOTP r phoneNumber with
      | Err _ => (Returned (Err ErrInvalidOTP), r)
      | Ok storedOTP =>
          if negb (String.eqb (model.OTPCode storedOTP) receivedOTP)
             || model.IsExpired (expired_now env) storedOTP
          then (Returned (Err ErrInvalidOTP), r)
          else (AtDeleteOTP phoneNumber, r)
      end
  | AtDeleteOTP phoneNumber =>
      let '(_, r1) := DeleteOTP r phoneNumber in
      (AtGetUser phoneNumber, r1)
  | AtGetUser phoneNumber =>
      match GetUserByPhoneNumber r phoneNumber with
      | Err err =>
          if errors_Is err ErrUserNotFound then (AtCreateUser phoneNumber, r)
          else (Returned (Err err), r)
      | Ok user => (AtGenerateJWT user, r)
      end
  | AtCreateUser phoneNumber =>
      let newUser := {| model.ID := 0;
                        model.PhoneNumber := phoneNumber;
                        model.CreatedAt := time.zeroTime;
                        model.UpdatedAt := time.zeroTime |} in
      match CreateUser r newUser (user_id env)
                       (created_now env) (updated_now env) with
      | (Err _, r') => (Returned (Err ErrUserRegistration), r')
      | (Ok createdUser, r') => (AtGenerateJWT createdUser, r')
      end
  | AtGenerateJWT user =>
      match generateJWT jwtSecret (model.ID user) (model.PhoneNumber user)
                        (iat_now env) (exp_now env) with
      | Err _ => (Returned (Err ErrJWTGeneration), r)
      | Ok token => (Returned (Ok token), r)
      end
  | Returned res => (Returned res, r)
  end.

(** One call running alone: [n] steps in a row. *)
Fixpoint run (jwtSecret : string) (env : VerifyEnv) (n : nat)
    (r : Repository) (c : VerifyCall) : VerifyCall * Repository :=
  match n with
  | O => (c, r)
  | S n' => let '(c', r') := step jwtSecret env r c in run jwtSecret env n' r' c'
  end.

(** Two calls in flight on the same repository; the schedule names the call
    that takes the next step. *)
Inductive Turn : Type := First | Second.

Fixpoint interleave (jwtSecret : string) (env1 env2 : VerifyEnv)
    (schedule : list Turn) (r : Repository) (c1 c2 : VerifyCall)
  : VerifyCall * VerifyCall * Repository :=
  match schedule with
  | [] => (c1, c2, r)
  | First :: rest =>
      let '(c1', r') := step jwtSecret env1 r c1 in
      interleave jwtSecret env1 env2 rest r' c1' c2
  | Second :: rest =>
      let '(c2', r') := step jwtSecret env2 r c2 in
      interleave jwtSecret env1 env2 rest r' c1 c2'
  end.

(** Several [SendOTP] calls in a row, one environment per call. *)
Fixpoint SendOTP_all (r : Repository) (envs : list SendEnv)
    (phoneNumber : string) : list (option error) * Repository :=
  match envs with
  | [] => ([], r)
  | env :: rest =>
      let '(e, r1) := SendOTP r env phoneNumber in
      let '(es, r2) := SendOTP_all r1 rest phoneNumber in
      (e :: es, r2)
  end.

(** *** Handler of POST /otp/send, after the middleware *)
Definition Handler_SendOTP (r : Repository) (env : SendEnv)
    (otp_request : string) : middleware.Response * Repository :=
  match SendOTP r env otp_request with
  | (Some err, r') =>
      if errors_Is err ErrRateLimitExceeded then
        (middleware.JSON middleware.StatusTooManyRequests "rate limit exceeded", r')
      else
        (middleware.JSON middleware.StatusInternalServerError
           "failed to process OTP request", r')
  | (None, r') =>
      (middleware.JSON middleware.StatusOK
         "OTP sent successfully (check console)", r')
  end.

(** The route [authRoutes.POST("/send", OTPRateLimiter(otpRateLimiter),
    authHandler.SendOTP)]: the middleware and the repository work on the
    same limiter. *)
Definition POST_otp_send (r : Repository) (mw_now : time.Time) (env : SendEnv)
    (bind : result string) : middleware.Response * Repository :=
  let '(out, l') := middleware.OTPRateLimiter (rateLimiter r) mw_now bind in
  let r' := set_rateLimiter r l' in
  match out with
  | inl resp => (resp, r')
  | inr otp_request => Handler_SendOTP r' env otp_request
  end.

(** *** Handler of POST /otp/verify; [bind] is the outcome of
    [c.ShouldBindJSON(&req)]: phone number and OTP, or the binding error.
    The second component of the answer is the token of a 200. *)
Definition Handler_VerifyOTP (jwtSecret : string) (r : Repository)
    (env : VerifyEnv) (bind : result (string * string))
  : middleware.Response * option jwt.SignedToken * Repository :=
  match bind with
  | Err _ => (middleware.JSON middleware.StatusBadRequest "Invalid request", None, r)
  | Ok (phoneNumber, otpCode) =>
      match VerifyOTPAndAuthenticate jwtSecret r env phoneNumber otpCode with
      | (Err err, r') =>
          if errors_Is err ErrInvalidOTP then
            (middleware.JSON middleware.StatusUnauthorized (error_Error err),
             None, r')
          else
            (middleware.JSON middleware.StatusInternalServerError (error_Error err),
             None, r')
      | (Ok token, r') =>
          (middleware.JSON middleware.StatusOK "token", Some token, r')
      end
  end.

End WithLibraries.

End auth.

(** ** Package pkg/user: service and handler of the user list *)
Module user.

(** [userService.ListUsers] over the in-memory store ([userRepository]
    forwards the call); the store never returns an error. *)
Definition ListUsers (visited : list model.User) (limit offset : Z)
    (search : string) : option (list model.UserResponse * Z) :=
  match database.ListUsers visited limit offset search with
  | None => None
  | Some (users, total) => Some (model.ToUserResponse <$> users, total)
  end.

(** Answers of [Handler.ListUsers]. *)
Inductive ListAnswer : Type :=
| ListOK (data : list model.UserResponse) (total page limit : Z)
| ListBadRequest (message : string)
| ListPanic.

(** [Handler.ListUsers]; [page] and [limit] are the outcomes of
    [strconv.Atoi] on the query values (with their defaults "1" and "10"),
    [search] is the query value. *)
Definition Handler_ListUsers (visited : list model.User)
    (page limit : result Z) (search : string) : ListAnswer :=
  match page with
  | Err _ => ListBadRequest "Invalid page number"
  | Ok page =>
      if decide (page <= 0) then ListBadRequest "Invalid page number"
      else
        match limit with
        | Err _ => ListBadRequest "Invalid limit per page"
        | Ok limit =>
            if decide (limit <= 0) then ListBadRequest "Invalid limit per page"
            else
              let offset :=
                database.wrap_int (database.wrap_int (page - 1) * limit) in
              match ListUsers visited limit offset search with
              | None => ListPanic
              | Some (users, total) => ListOK users total page limit
              end
        end
  end.

End user.

(** ** Package main: the wiring *)
Module main.

(** [otpRateLimiter := middleware.NewInMemoryRateLimiter(3, 2*time.Minute)],
    in-memory stores, one repository around them. *)
Definition authRepo : auth.Repository :=
  {| auth.userStore := database.NewInMemoryUserStore;
     auth.otpStore := database.NewInMemoryOTPStore;
     auth.rateLimiter :=
       middleware.NewInMemoryRateLimiter 3 (2 * time.Minute) |}.

End main.

(** ** Conditions named in the statements *)

(** The OTP check of step 1: a stored code that equals the received one
    and is not expired at the reading of the clock. *)
Definition otp_check_passes (r : auth.Repository) (now : Z)
    (phoneNumber receivedOTP : string) : Prop :=
  exists storedOTP,
    auth.GetOTP r phoneNumber = Ok storedOTP
    /\ model.OTPCode storedOTP = receivedOTP
    /\ model.IsExpired now storedOTP = false.

(** The user store is consistent when the phone index and the user map
    agree: an indexed phone number leads to a user with that phone number
    and that id. *)
Definition user_store_ok (s : database.InMemoryUserStore) : Prop :=
  forall phone id,
    database.phoneIndex s !! phone = Some id ->
    exists u, database.users s !! id = Some u
              /\ model.PhoneNumber u = phone /\ model.ID u = id.

(** Several [Allow] calls in a row on the middleware limiter, each with
    its key and its reading of the clock. *)
Fixpoint Allow_all (r : middleware.InMemoryRateLimiter)
    (calls : list (string * Z)) : list bool * middleware.InMemoryRateLimiter :=
  match calls with
  | [] => ([], r)
  | (key, now) :: rest =>
      let '(ok, r1) := middleware.Allow r now key in
      let '(oks, r2) := Allow_all r1 rest in
      (ok :: oks, r2)
  end.

(** The same calls on the limiter of the database package. *)
Fixpoint database_Allow_all (r : database.InMemoryRateLimiter)
    (calls : list (string * Z)) : list bool * database.InMemoryRateLimiter :=
  match calls with
  | [] => ([], r)
  | (key, now) :: rest =>
      let '(ok, r1) := database.Allow r now key in
      let '(oks, r2) := database_Allow_all r1 rest in
      (ok :: oks, r2)
  end.

(** The instants of the calls for [key] that were admitted. *)
Fixpoint accepted (key : string) (calls : list (string * Z))
    (answers : list bool) : list Z :=
  match calls, answers with
  | (k, now) :: calls', ok :: answers' =>
      if decide (k = key /\ ok = true) then now :: accepted key calls' answers'
      else accepted key calls' answers'
  | _, _ => []
  end.

(** Whether a string contains a space. *)
Fixpoint has_space (s : string) : bool :=
  match s with
  | EmptyString => false
  | String c s' => Ascii.eqb c " " || has_space s'
  end.

(** [strings.Join(pieces, " ")] *)
Fixpoint Join_space (pieces : list string) : string :=
  match pieces with
  | [] => ""
  | [piece] => piece
  | piece :: rest => piece ++ " " ++ Join_space rest
  end.

(** Reading a run of decimal digits back as a number. *)
Definition digits_value (ds : list ascii) : Z :=
  fold_left (fun acc c => 10 * acc + (Z.of_N (N_of_ascii c) - 48)) ds 0.

(** ** Sample data for the closed instances *)

Definition sample_phone : string := "+15551234567".

(** A [SendOTP] call at [t] seconds whose random bytes give the code 482913. *)
Definition sample_send (t : Z) : auth.SendEnv :=
  {| auth.allow_now := t * time.Second;
     auth.rand_read := Ok (x07, x5e, x61)%byte;
     auth.expiry_now := t * time.Second;
     auth.otp_id := 7;
     auth.store_now := t * time.Second |}.

(** Stand-ins for the library parameters in the closed instances: every
    hash is linked in, the MAC is a tag built from the key, and a UUID is
    written as a run of as many characters as its value. *)
Definition sample_hash_available (alg : jwt.HMACAlg) : bool := true.

Definition sample_HMAC (alg : jwt.HMACAlg) (key : string)
    (signing : jwt.SigningString) : string :=
  ("mac:" ++ key)%string.

(** A second MAC stand-in, whose tag also names the algorithm. *)
Definition sample_HMAC_by_alg (alg : jwt.HMACAlg) (key : string)
    (signing : jwt.SigningString) : string :=
  (match alg with
   | jwt.HS256 => "HS256:"
   | jwt.HS384 => "HS384:"
   | jwt.HS512 => "HS512:"
   end ++ key)%string.

Definition sample_uuid_String (u : Z) : string :=
  string_of_list_ascii (repeat "u"%char (Z.to_nat u)).

Definition sample_uuid_Parse (s : string) : option Z :=
  Some (Z.of_nat (String.length s)).

Definition sample_secret : string := "default-jwt-secret".

(** A [VerifyOTPAndAuthenticate] call at [t] seconds; a user it creates
    gets the id [id]. *)
Definition sample_verify (t : Z) (id : Z) : auth.VerifyEnv :=
  {| auth.expired_now := t * time.Second;
     auth.user_id := id;
     auth.created_now := t * time.Second;
     auth.updated_now := t * time.Second;
     auth.iat_now := t * time.Second;
     auth.exp_now := t * time.Second |}.

(** The service after one [SendOTP] at second 0: the code 482913 is stored
    for [sample_phone] and expires at second 120. *)
Definition sample_after_send : auth.Repository :=
  (auth.SendOTP main.authRepo (sample_send 0) sample_phone).2.

(** Three users as [range] may visit them. *)
Definition sample_users : list model.User :=
  [model.mkUser 1 "+15550000001" 10 10;
   model.mkUser 2 "+15550000002" 20 20;
   model.mkUser 3 "+15550000003" 30 30].

(** The service function and the interleaving with the stand-ins. *)
Definition sample_Verify
  : auth.Repository -> auth.VerifyEnv -> string -> string
    -> result jwt.SignedToken * auth.Repository :=
  auth.VerifyOTPAndAuthenticate
    sample_hash_available sample_HMAC sample_uuid_String sample_secret.

Definition sample_interleave (schedule : list auth.Turn)
  : auth.VerifyCall * auth.VerifyCall * auth.Repository :=
  auth.interleave sample_hash_available sample_HMAC sample_uuid_String
    sample_secret (sample_verify 30 1) (sample_verify 30 2) schedule
    sample_after_send
    (auth.AtGetOTP sample_phone "482913") (auth.AtGetOTP sample_phone "482913").

(** * Properties *)

(** ** Time *)

Lemma Sub_mono_r (now t u : Z) :
  t <= u -> time.Sub now u <= time.Sub now t.
Proof. unfold time.Sub, time.minDuration, time.maxDuration. lia. Qed.

Lemma Sub_mono_l (t t' u : Z) :
  t <= t' -> time.Sub t u <= time.Sub t' u.
Proof. unfold time.Sub, time.minDuration, time.maxDuration. lia. Qed.

(** ** The sliding window *)

Section Window.

Variable r : middleware.InMemoryRateLimiter.
Variable key : string.

Let W := middleware.timeWindow r.
Let N := middleware.maxReq r.

Lemma recent_all now ts :
  Forall (fun t => time.Sub now t <= W) ts -> middleware.recent r now ts = ts.
Proof.
  unfold middleware.recent. induction 1 as [|t ts Ht _ IH]; [done|].
  rewrite filter_cons_True by done. by rewrite IH.
Qed.

Lemma recent_set_requests m now ts :
  middleware.recent (middleware.set_requests r m) now ts
  = middleware.recent r now ts.
Proof. done. Qed.

Lemma Allow_fst now :
  (middleware.Allow r now key).1
  = bool_decide (Z.of_nat (length (middleware.recent r now
        (default [] (middleware.requests r !! key)))) < N).
Proof.
  unfold middleware.Allow. cbv zeta. case_decide; simpl.
  - rewrite bool_decide_eq_false_2; [done|]. subst N. lia.
  - rewrite bool_decide_eq_true_2; [done|]. subst N. lia.
Qed.

Lemma Allow_snd_key now :
  middleware.requests (middleware.Allow r now key).2 !! key
  = Some (let survivors := middleware.recent r now
                 (default [] (middleware.requests r !! key)) in
          if (middleware.Allow r now key).1 then survivors ++ [now]
          else survivors).
Proof.
  unfold middleware.Allow. cbv zeta. case_decide; simpl;
    by rewrite lookup_insert_eq.
Qed.

Lemma Allow_snd_other now key' :
  key <> key' ->
  middleware.requests (middleware.Allow r now key).2 !! key'
  = middleware.requests r !! key'.
Proof.
  intros Hne. unfold middleware.Allow. cbv zeta. case_decide; simpl;
    by rewrite lookup_insert_ne.
Qed.

Lemma Allow_config now :
  middleware.maxReq (middleware.Allow r now key).2 = N
  /\ middleware.timeWindow (middleware.Allow r now key).2 = W.
Proof. unfold middleware.Allow. cbv zeta. by case_decide. Qed.

End Window.

(** ** The background sweep does not change admission *)

Lemma cleanup_lookup r tc key :
  default [] (middleware.requests (middleware.cleanup r tc) !! key)
  = middleware.recent r tc (default [] (middleware.requests r !! key)).
Proof.
  unfold middleware.cleanup. simpl. rewrite lookup_omap.
  destruct (middleware.requests r !! key) as [ts|]; simpl; [|done].
  by destruct (middleware.recent r tc ts).
Qed.

Lemma recent_recent r tc now ts :
  tc <= now ->
  middleware.recent r now (middleware.recent r tc ts) = middleware.recent r now ts.
Proof.
  intros Hle. unfold middleware.recent. rewrite list_filter_filter.
  apply list_filter_iff. intros t. split; [tauto|]. intros Ht. split; [done|].
  etrans; [apply Sub_mono_l, Hle|]. done.
Qed.

(** X20. The background sweep is invisible: a round of [cleanup] at [tc]
    followed by [Allow] at a later [now] answers as [Allow] alone and
    leaves the same instants for the key. *)
Lemma cleanup_preserves_admission r tc now key :
  tc <= now ->
  (middleware.Allow (middleware.cleanup r tc) now key).1
  = (middleware.Allow r now key).1
  /\ middleware.requests (middleware.Allow (middleware.cleanup r tc) now key).2
       !! key
     = middleware.requests (middleware.Allow r now key).2 !! key.
Proof.
  intros Hle.
  assert (Hrec : middleware.recent (middleware.cleanup r tc) now
                   (default [] (middleware.requests (middleware.cleanup r tc) !! key))
                 = middleware.recent r now
                     (default [] (middleware.requests r !! key))).
  { rewrite cleanup_lookup. unfold middleware.cleanup.
    rewrite recent_set_requests. by apply recent_recent. }
  assert (Hfst : (middleware.Allow (middleware.cleanup r tc) now key).1
                 = (middleware.Allow r now key).1).
  { rewrite !Allow_fst, Hrec. done. }
  split; [done|]. rewrite !Allow_snd_key. cbv zeta. by rewrite Hrec, Hfst.
Qed.

(** ** SendOTP and the limiter *)

Lemma SendOTP_result r env phone :
  (auth.SendOTP r env phone).1
  = if (middleware.Allow (auth.rateLimiter r) (auth.allow_now env) phone).1
    then None else Some ErrRateLimitExceeded.
Proof.
  unfold auth.SendOTP, auth.AllowOTPRate.
  destruct (middleware.Allow _ _ _) as [[] l']; reflexivity.
Qed.

Lemma SendOTP_rateLimiter r env phone :
  auth.rateLimiter (auth.SendOTP r env phone).2
  = (middleware.Allow (auth.rateLimiter r) (auth.allow_now env) phone).2.
Proof.
  unfold auth.SendOTP, auth.AllowOTPRate.
  destruct (middleware.Allow _ _ _) as [[] l']; reflexivity.
Qed.

(** Calls that all find room in the window are all admitted, and their
    instants are appended in order. *)
Lemma SendOTP_all_admitted phone t1 envs : forall r pre,
  middleware.requests (auth.rateLimiter r) !! phone = Some pre ->
  Z.of_nat (length pre + length envs) <= middleware.maxReq (auth.rateLimiter r) ->
  Forall (fun u => t1 <= u) pre ->
  Forall (fun u => Forall (fun t => u <= t) (map auth.allow_now envs)) pre ->
  StronglySorted Z.le (map auth.allow_now envs) ->
  Forall (fun t => t1 <= t
                   /\ time.Sub t t1 <= middleware.timeWindow (auth.rateLimiter r))
         (map auth.allow_now envs) ->
  let out := auth.SendOTP_all r envs phone in
  out.1 = replicate (length envs) None
  /\ middleware.requests (auth.rateLimiter out.2) !! phone
     = Some (pre ++ map auth.allow_now envs)
  /\ middleware.maxReq (auth.rateLimiter out.2)
     = middleware.maxReq (auth.rateLimiter r)
  /\ middleware.timeWindow (auth.rateLimiter out.2)
     = middleware.timeWindow (auth.rateLimiter r).
Proof.
  induction envs as [|env envs IH]; intros r pre Hpre Hroom Hlow Hle Hsort Hwin.
  - simpl. by rewrite app_nil_r.
  - simpl in Hsort, Hwin, Hroom |- *.
    apply StronglySorted_inv in Hsort as [Hsort Hhd].
    apply Forall_cons in Hwin as [[Ht1 Hsub] Hwin].
    pose proof (SendOTP_result r env phone) as Hres.
    pose proof (SendOTP_rateLimiter r env phone) as Hrl.
    destruct (auth.SendOTP r env phone) as [e r1]. simpl in Hres, Hrl.
    (* every stored instant survives at this call *)
    assert (Hsurv : middleware.recent (auth.rateLimiter r) (auth.allow_now env) pre
                    = pre).
    { apply recent_all. rewrite Forall_forall in Hlow, Hle |- *.
      intros u Hu. specialize (Hlow u Hu). specialize (Hle u Hu).
      apply Forall_cons in Hle as [Hle _].
      etrans; [apply Sub_mono_r, Hlow|]. done. }
    pose proof (Allow_fst (auth.rateLimiter r) phone (auth.allow_now env)) as Hfst.
    pose proof (Allow_snd_key (auth.rateLimiter r) phone (auth.allow_now env)) as Hsnd.
    pose proof (Allow_config (auth.rateLimiter r) phone (auth.allow_now env))
      as [HN HW].
    rewrite Hpre in Hfst, Hsnd. simpl in Hfst, Hsnd.
    rewrite Hsurv in Hfst, Hsnd.
    rewrite bool_decide_eq_true_2 in Hfst by lia.
    rewrite Hfst in Hres, Hsnd. rewrite <- Hrl in Hsnd, HN, HW.
    specialize (IH r1 (pre ++ [auth.allow_now env]) Hsnd).
    destruct IH as (IH1 & IH2 & IH3 & IH4).
    + rewrite HN, length_app. simpl. lia.
    + apply Forall_app. split; [done|]. by apply Forall_singleton.
    + apply Forall_app. split.
      * eapply Forall_impl; [exact Hle|]. intros u Hu.
        by apply Forall_cons in Hu as [_ Hu].
      * by apply Forall_singleton.
    + done.
    + by rewrite HW.
    + destruct (auth.SendOTP_all r1 envs phone) as [es r2]. simpl in *.
      rewrite Hres, IH1, IH2, IH3, IH4, HN, HW, <- app_assoc. done.
Qed.

Lemma SendOTP_all_app r envs1 envs2 phone :
  auth.SendOTP_all r (envs1 ++ envs2) phone
  = let out1 := auth.SendOTP_all r envs1 phone in
    let out2 := auth.SendOTP_all out1.2 envs2 phone in
    (out1.1 ++ out2.1, out2.2).
Proof.
  revert r. induction envs1 as [|env envs1 IH]; intros r; simpl.
  - by destruct (auth.SendOTP_all r envs2 phone).
  - destruct (auth.SendOTP r env phone) as [e r1]. rewrite IH. simpl.
    destruct (auth.SendOTP_all r1 envs1 phone) as [es1 r2]. simpl.
    by destruct (auth.SendOTP_all r2 envs2 phone).
Qed.

Lemma SendOTP_all_cons r env envs phone :
  auth.SendOTP_all r (env :: envs) phone
  = let out1 := auth.SendOTP r env phone in
    let out2 := auth.SendOTP_all out1.2 envs phone in
    (out1.1 :: out2.1, out2.2).
Proof.
  simpl. destruct (auth.SendOTP r env phone) as [e r1]. simpl.
  by destruct (auth.SendOTP_all r1 envs phone).
Qed.

(** A call that finds the window full is refused and records nothing. *)
Lemma SendOTP_full r env phone pre :
  middleware.requests (auth.rateLimiter r) !! phone = Some pre ->
  Forall (fun u => time.Sub (auth.allow_now env) u
                   <= middleware.timeWindow (auth.rateLimiter r)) pre ->
  middleware.maxReq (auth.rateLimiter r) <= Z.of_nat (length pre) ->
  let out := auth.SendOTP r env phone in
  out.1 = Some ErrRateLimitExceeded
  /\ middleware.requests (auth.rateLimiter out.2) !! phone = Some pre
  /\ middleware.maxReq (auth.rateLimiter out.2)
     = middleware.maxReq (auth.rateLimiter r)
  /\ middleware.timeWindow (auth.rateLimiter out.2)
     = middleware.timeWindow (auth.rateLimiter r).
Proof.
  intros Hpre Hsurv Hfull out. subst out.
  rewrite SendOTP_result, SendOTP_rateLimiter.
  pose proof (Allow_fst (auth.rateLimiter r) phone (auth.allow_now env)) as Hfst.
  pose proof (Allow_snd_key (auth.rateLimiter r) phone (auth.allow_now env)) as Hsnd.
  pose proof (Allow_config (auth.rateLimiter r) phone (auth.allow_now env))
    as [HN HW].
  rewrite Hpre in Hfst, Hsnd. simpl in Hfst, Hsnd.
  rewrite (recent_all _ _ _ Hsurv) in Hfst, Hsnd.
  rewrite bool_decide_eq_false_2 in Hfst by lia.
  rewrite Hfst in Hsnd |- *. done.
Qed.

(** A call made when the oldest stored instant has left the window of a
    store holding at most [maxReq] instants is admitted. *)
Lemma SendOTP_after_oldest_left r env phone t1 more :
  middleware.requests (auth.rateLimiter r) !! phone = Some (t1 :: more) ->
  Z.of_nat (length (t1 :: more)) <= middleware.maxReq (auth.rateLimiter r) ->
  middleware.timeWindow (auth.rateLimiter r) < time.Sub (auth.allow_now env) t1 ->
  (auth.SendOTP r env phone).1 = None.
Proof.
  intros Hpre Hlen Hout. rewrite SendOTP_result, Allow_fst, Hpre. simpl default.
  unfold middleware.recent. rewrite filter_cons_False by lia.
  pose proof (length_filter
    (fun t => time.Sub (auth.allow_now env) t
              <= middleware.timeWindow (auth.rateLimiter r)) more) as Hle.
  simpl in Hlen. rewrite bool_decide_eq_true_2; [done|]. lia.
Qed.

(** The limiter of the database package follows the same rule with its
    constants 3 and 10 minutes. *)
Lemma database_Allow_rule l now key :
  let survivors := filter (fun t => time.Sub now t <= 10 * time.Minute)
                          (default [] (database.requests l !! key)) in
  let out := database.Allow l now key in
  out.1 = bool_decide (Z.of_nat (length survivors) < 3)
  /\ default [] (database.requests out.2 !! key)
     = (if out.1 then survivors ++ [now]
        else default [] (database.requests l !! key)).
Proof.
  unfold database.Allow. cbv zeta. case_decide; simpl.
  - rewrite bool_decide_eq_false_2 by lia. done.
  - rewrite bool_decide_eq_true_2 by lia. by rewrite lookup_insert_eq.
Qed.

(** C3. Rate-limiter admission. Each [Allow] first drops the instants older
    than the window; with at least [maxReq] survivors it returns false and
    the new instant is not recorded, otherwise it appends the current
    instant and returns true (both limiters). Consequently, for maxReq + 1
    [SendOTP] calls on one phone number, made in time order within one
    window of the first and starting with no surviving instant, the first
    maxReq succeed and the last fails with [ErrRateLimitExceeded]; a later
    call succeeds once the oldest recorded instant is out of the window. *)
Theorem rate_limiter_admission :
  (forall l now key,
     let survivors := filter (fun t => time.Sub now t <= middleware.timeWindow l)
                             (default [] (middleware.requests l !! key)) in
     let out := middleware.Allow l now key in
     out.1 = bool_decide (Z.of_nat (length survivors) < middleware.maxReq l)
     /\ middleware.requests out.2 !! key
        = Some (if out.1 then survivors ++ [now] else survivors))
  /\ (forall l now key,
     let survivors := filter (fun t => time.Sub now t <= 10 * time.Minute)
                             (default [] (database.requests l !! key)) in
     let out := database.Allow l now key in
     out.1 = bool_decide (Z.of_nat (length survivors) < 3)
     /\ default [] (database.requests out.2 !! key)
        = (if out.1 then survivors ++ [now]
           else default [] (database.requests l !! key)))
  /\ (forall r phone envs later,
     let l := auth.rateLimiter r in
     let ts := map auth.allow_now envs in
     0 < middleware.maxReq l ->
     Z.of_nat (length envs) = middleware.maxReq l + 1 ->
     StronglySorted Z.le ts ->
     Forall (fun t => time.Sub t (hd 0 ts) <= middleware.timeWindow l) ts ->
     middleware.recent l (hd 0 ts) (default [] (middleware.requests l !! phone))
       = [] ->
     let out := auth.SendOTP_all r envs phone in
     out.1 = replicate (Z.to_nat (middleware.maxReq l)) None
             ++ [Some ErrRateLimitExceeded]
     /\ (middleware.timeWindow l < time.Sub (auth.allow_now later) (hd 0 ts) ->
         (auth.SendOTP out.2 later phone).1 = None)).
Proof.
  split; [|split].
  - intros l now key survivors out. subst survivors out. split.
    + apply Allow_fst.
    + apply Allow_snd_key.
  - apply database_Allow_rule.
  - intros r phone envs later l ts HN Hlen Hsort Hwin Hfresh out.
    destruct envs as [|first tl]; [simpl in Hlen; lia|].
    destruct (exists_last (l := tl)) as (mid & last & ->).
    { intros ->. simpl in Hlen. lia. }
    subst ts. simpl hd in *. simpl map in Hsort, Hwin.
    rewrite map_app in Hsort, Hwin. simpl map in Hsort, Hwin.
    set (t1 := auth.allow_now first) in *.
    rewrite length_cons, length_app in Hlen. simpl in Hlen.
    apply StronglySorted_inv in Hsort as [Hsort Hhd].
    apply Forall_cons in Hwin as [_ Hwin].
    apply Forall_app in Hhd as [Hhd_mid Hhd_last].
    apply Forall_app in Hwin as [Hwin_mid Hwin_last].
    apply Forall_inv in Hhd_last. apply Forall_inv in Hwin_last.
    (* the first call *)
    pose proof (SendOTP_result r first phone) as Hres1.
    pose proof (SendOTP_rateLimiter r first phone) as Hrl1.
    pose proof (Allow_fst l phone t1) as Hfst.
    pose proof (Allow_snd_key l phone t1) as Hsnd.
    pose proof (Allow_config l phone t1) as [HN1 HW1].
    fold t1 in Hres1, Hrl1. fold l in Hres1, Hrl1.
    rewrite Hfresh in Hfst, Hsnd. simpl in Hfst, Hsnd.
    rewrite bool_decide_eq_true_2 in Hfst by lia.
    rewrite Hfst in Hres1, Hsnd. rewrite <- Hrl1 in Hsnd, HN1, HW1.
    subst out. rewrite SendOTP_all_cons. cbv zeta.
    rewrite SendOTP_all_app. cbv zeta.
    rewrite SendOTP_all_cons. cbv zeta. simpl (auth.SendOTP_all _ [] _).
    destruct (auth.SendOTP r first phone) as [e1 r1]. simpl in Hres1, Hsnd, HN1, HW1.
    simpl fst. simpl snd. subst e1.
    (* the calls in between *)
    pose proof (SendOTP_all_admitted phone t1 mid r1 [t1] Hsnd) as Hmid.
    cbv zeta in Hmid. destruct Hmid as (Hm1 & Hm2 & Hm3 & Hm4).
    { rewrite HN1. simpl. lia. }
    { by apply Forall_singleton. }
    { by apply Forall_singleton. }
    { by apply StronglySorted_app_1_l in Hsort. }
    { rewrite HW1. rewrite Forall_forall in Hhd_mid, Hwin_mid |- *.
      intros t Ht. split; [by apply Hhd_mid | by apply Hwin_mid]. }
    destruct (auth.SendOTP_all r1 mid phone) as [es r2].
    simpl in Hm1, Hm2, Hm3, Hm4. simpl fst. simpl snd. subst es.
    (* the last call finds the window full *)
    pose proof (SendOTP_full r2 last phone _ Hm2) as Hlast.
    cbv zeta in Hlast. destruct Hlast as (Hl1 & Hl2 & Hl3 & Hl4).
    { rewrite Hm4, HW1. constructor.
      - done.
      - rewrite Forall_forall in Hhd_mid |- *. intros u Hu.
        etrans; [apply Sub_mono_r, Hhd_mid, Hu|]. done. }
    { rewrite Hm3, HN1. simpl. rewrite length_map. lia. }
    destruct (auth.SendOTP r2 last phone) as [e3 r3].
    simpl in Hl1, Hl2, Hl3, Hl4. simpl fst. simpl snd. subst e3. split.
    + replace (Z.to_nat (middleware.maxReq l)) with (S (length mid)) by lia.
      done.
    + intros Hlater. eapply SendOTP_after_oldest_left; [exact Hl2| |].
      * rewrite Hl3, Hm3, HN1. simpl. rewrite length_map. lia.
      * rewrite Hl4, Hm4, HW1. done.
Qed.

Lemma rate_limiter_admission_witness :
  let envs := [sample_send 0; sample_send 10; sample_send 20; sample_send 30] in
  (auth.SendOTP_all main.authRepo envs sample_phone).1
  = [None; None; None; Some ErrRateLimitExceeded]
  /\ (auth.SendOTP (auth.SendOTP_all main.authRepo envs sample_phone).2
                   (sample_send 121) sample_phone).1 = None.
Proof.
  intros envs.
  destruct (proj2 (proj2 rate_limiter_admission)
              main.authRepo sample_phone envs (sample_send 121)) as [H1 H2].
  - vm_compute. reflexivity.
  - vm_compute. reflexivity.
  - repeat constructor; vm_compute; discriminate.
  - repeat constructor; vm_compute; discriminate.
  - vm_compute. reflexivity.
  - split; [exact H1 | apply H2; vm_compute; reflexivity].
Defined.

(** ** The wired /otp/send path *)

Lemma Allow_admit l now key :
  let s := middleware.recent l now (default [] (middleware.requests l !! key)) in
  Z.of_nat (length s) < middleware.maxReq l ->
  middleware.Allow l now key
  = (true, middleware.set_requests l (<[key := s ++ [now]]> (middleware.requests l))).
Proof.
  intros s Hs. unfold middleware.Allow. cbv zeta. fold s.
  case_decide; [lia | done].
Qed.

Lemma Allow_reject l now key :
  let s := middleware.recent l now (default [] (middleware.requests l !! key)) in
  middleware.maxReq l <= Z.of_nat (length s) ->
  middleware.Allow l now key
  = (false, middleware.set_requests l (<[key := s]> (middleware.requests l))).
Proof.
  intros s Hs. unfold middleware.Allow. cbv zeta. fold s.
  case_decide; [done | lia].
Qed.

(** C4. On the wired /otp/send route the one limiter is asked twice for a
    request that is let through: by the middleware and by [SendOTP]. With
    a maximum of 3, a first request leaves two instants for the phone
    number, and a second request inside the window is already answered
    429 by the service, its middleware instant being the third. *)
Theorem wired_send_asks_limiter_twice :
  forall r phone mw1 env1 mw2 env2,
    let l := auth.rateLimiter r in
    middleware.maxReq l = 3 ->
    middleware.recent l mw1 (default [] (middleware.requests l !! phone)) = [] ->
    mw1 <= auth.allow_now env1 ->
    auth.allow_now env1 <= mw2 ->
    mw2 <= auth.allow_now env2 ->
    time.Sub (auth.allow_now env2) mw1 <= middleware.timeWindow l ->
    let out1 := auth.POST_otp_send r mw1 env1 (Ok phone) in
    let out2 := auth.POST_otp_send out1.2 mw2 env2 (Ok phone) in
    out1.1 = middleware.JSON 200 "OTP sent successfully (check console)"
    /\ middleware.requests (auth.rateLimiter out1.2) !! phone
       = Some [mw1; auth.allow_now env1]
    /\ out2.1 = middleware.JSON 429 "rate limit exceeded"
    /\ middleware.requests (auth.rateLimiter out2.2) !! phone
       = Some [mw1; auth.allow_now env1; mw2].
Proof.
  intros r phone mw1 env1 mw2 env2 l HN Hfresh H1 H2 H3 Hwin out1 out2.
  set (W := middleware.timeWindow l) in *.
  set (sv1 := auth.allow_now env1) in *.
  set (sv2 := auth.allow_now env2) in *.
  assert (Hin : forall t u, mw1 <= u -> u <= t -> t <= sv2 -> time.Sub t u <= W).
  { intros t u Hu Hut Ht.
    etrans; [apply Sub_mono_r, Hu|]. etrans; [apply Sub_mono_l, Ht|]. done. }
  (* first request, middleware *)
  assert (E1 : middleware.Allow l mw1 phone
               = (true, middleware.set_requests l
                          (<[phone := [mw1]]> (middleware.requests l)))).
  { rewrite Allow_admit; rewrite Hfresh; [done | simpl; lia]. }
  set (l1 := middleware.set_requests l _) in E1.
  (* first request, service *)
  assert (E2 : middleware.Allow l1 sv1 phone
               = (true, middleware.set_requests l1
                          (<[phone := [mw1; sv1]]> (middleware.requests l1)))).
  { assert (Hs : middleware.recent l1 sv1
                   (default [] (middleware.requests l1 !! phone)) = [mw1]).
    { subst l1. simpl. rewrite lookup_insert_eq. simpl.
      rewrite !recent_set_requests. apply (recent_all l). constructor; [|done]. apply Hin; lia. }
    rewrite Allow_admit; rewrite Hs; [done | simpl; lia]. }
  set (l2 := middleware.set_requests l1 _) in E2.
  (* second request, middleware *)
  assert (E3 : middleware.Allow l2 mw2 phone
               = (true, middleware.set_requests l2
                          (<[phone := [mw1; sv1; mw2]]> (middleware.requests l2)))).
  { assert (Hs : middleware.recent l2 mw2
                   (default [] (middleware.requests l2 !! phone)) = [mw1; sv1]).
    { subst l2 l1. simpl. rewrite lookup_insert_eq. simpl.
      rewrite !recent_set_requests. apply (recent_all l). repeat constructor; apply Hin; lia. }
    rewrite Allow_admit; rewrite Hs; [done | simpl; lia]. }
  set (l3 := middleware.set_requests l2 _) in E3.
  (* second request, service *)
  assert (E4 : middleware.Allow l3 sv2 phone
               = (false, middleware.set_requests l3
                           (<[phone := [mw1; sv1; mw2]]> (middleware.requests l3)))).
  { assert (Hs : middleware.recent l3 sv2
                   (default [] (middleware.requests l3 !! phone))
                 = [mw1; sv1; mw2]).
    { subst l3 l2 l1. simpl. rewrite lookup_insert_eq. simpl.
      rewrite !recent_set_requests. apply (recent_all l). repeat constructor; apply Hin; lia. }
    rewrite Allow_reject; rewrite Hs; [done | simpl; lia]. }
  subst out1 out2.
  unfold auth.POST_otp_send, middleware.OTPRateLimiter, auth.Handler_SendOTP,
    auth.SendOTP, auth.AllowOTPRate.
  fold l. rewrite E1. simpl. fold sv1. rewrite E2. simpl.
  rewrite E3. simpl. fold sv2. rewrite E4. simpl.
  rewrite !lookup_insert_eq. done.
Qed.

Lemma wired_send_asks_limiter_twice_witness :
  let out1 := auth.POST_otp_send main.authRepo 0 (sample_send 1) (Ok sample_phone) in
  let out2 := auth.POST_otp_send out1.2 (30 * time.Second) (sample_send 31)
                                 (Ok sample_phone) in
  out1.1 = middleware.JSON 200 "OTP sent successfully (check console)"
  /\ middleware.requests (auth.rateLimiter out1.2) !! sample_phone
     = Some [0; 1 * time.Second]
  /\ out2.1 = middleware.JSON 429 "rate limit exceeded"
  /\ middleware.requests (auth.rateLimiter out2.2) !! sample_phone
     = Some [0; 1 * time.Second; 30 * time.Second].
Proof.
  apply (wired_send_asks_limiter_twice main.authRepo sample_phone
           0 (sample_send 1) (30 * time.Second) (sample_send 31)).
  - reflexivity.
  - reflexivity.
  - vm_compute; discriminate.
  - vm_compute; discriminate.
  - vm_compute; discriminate.
  - vm_compute; discriminate.
Defined.

(** ** The code generator *)

Lemma length_string_of_list_ascii (l : list ascii) :
  String.length (string_of_list_ascii l) = length l.
Proof. induction l as [|c l IH]; simpl; [done | by rewrite IH]. Qed.

Lemma digit_is_digit d : 0 <= d <= 9 -> otp.is_digit (fmt.digit d).
Proof.
  intros Hd. unfold otp.is_digit, fmt.digit.
  rewrite N_ascii_embedding by lia. lia.
Qed.

Lemma decimal_digits fuel : forall n,
  0 <= n -> Forall otp.is_digit (fmt.decimal fuel n).
Proof.
  induction fuel as [|fuel IH]; intros n Hn; simpl; [constructor|].
  destruct (Z.ltb_spec n 10).
  - constructor; [|constructor]. apply digit_is_digit. lia.
  - apply Forall_app. split.
    + apply IH. apply Z.div_pos; lia.
    + constructor; [|constructor]. apply digit_is_digit.
      pose proof (Z.mod_pos_bound n 10). lia.
Qed.

Lemma decimal_length fuel : forall (k : nat) n,
  0 <= n < 10 ^ Z.of_nat (S k) -> (length (fmt.decimal fuel n) <= S k)%nat.
Proof.
  induction fuel as [|fuel IH]; intros k n Hn; simpl; [lia|].
  destruct (Z.ltb_spec n 10); simpl; [lia|].
  rewrite length_app. simpl.
  destruct k as [|k]; [simpl in Hn; lia|].
  assert (0 <= n / 10 < 10 ^ Z.of_nat (S k)).
  { rewrite (Nat2Z.inj_succ (S k)), Z.pow_succ_r in Hn by lia.
    split; [apply Z.div_pos; lia|]. apply Z.div_lt_upper_bound; lia. }
  specialize (IH k (n / 10)). lia.
Qed.

Lemma zero_pad_length width ds :
  (length ds <= width)%nat -> length (fmt.zero_pad width ds) = width.
Proof. intros H. unfold fmt.zero_pad. rewrite length_app, repeat_length. lia. Qed.

Lemma zero_pad_digits width ds :
  Forall otp.is_digit ds -> Forall otp.is_digit (fmt.zero_pad width ds).
Proof.
  intros H. unfold fmt.zero_pad. apply Forall_app. split; [|done].
  apply Forall_forall. intros c Hc. apply list_elem_of_In, repeat_spec in Hc.
  subst c. unfold otp.is_digit. simpl. lia.
Qed.

Lemma Sprintf_06d_six_digits n :
  0 <= n < 1000000 ->
  String.length (fmt.Sprintf_06d n) = 6%nat
  /\ Forall otp.is_digit (list_ascii_of_string (fmt.Sprintf_06d n)).
Proof.
  intros Hn. unfold fmt.Sprintf_06d.
  destruct (Z.ltb_spec n 0); [lia|].
  rewrite length_string_of_list_ascii, list_ascii_of_string_of_list_ascii.
  split.
  - apply zero_pad_length. apply (decimal_length 20 5 n). simpl. lia.
  - apply zero_pad_digits, decimal_digits. lia.
Qed.

Lemma int_range b : 0 <= otp.int b < 256.
Proof. unfold otp.int. pose proof (Byte.to_N_bounded b). lia. Qed.

(** Shifting left by [n] and or-ing a value below [2^n] is an addition. *)
Lemma lor_shiftl_add a b n :
  0 <= n -> 0 <= b < 2 ^ n -> Z.lor (Z.shiftl a n) b = a * 2 ^ n + b.
Proof.
  intros Hn Hb. rewrite <- Z.add_lor_land, Z.shiftl_mul_pow2 by done.
  assert (Z.land (a * 2 ^ n) b = 0) as ->; [|lia].
  apply Z.bits_inj'. intros m Hm. rewrite Z.land_spec, Z.bits_0.
  destruct (Z.lt_ge_cases m n).
  - rewrite Z.mul_pow2_bits_low by lia. done.
  - rewrite <- (Z.mod_small b (2 ^ n)) by lia.
    rewrite Z.mod_pow2_bits_high by lia. apply andb_false_r.
Qed.

Lemma code_number_value b0 b1 b2 :
  otp.code_number b0 b1 b2 = otp.bytes_value (b0, b1, b2) mod 1000000.
Proof.
  unfold otp.code_number, otp.bytes_value. simpl.
  pose proof (int_range b0). pose proof (int_range b1). pose proof (int_range b2).
  assert (E1 : Z.lor (Z.shiftl (otp.int b0) 16) (Z.shiftl (otp.int b1) 8)
               = Z.shiftl (otp.int b0 * 2 ^ 8 + otp.int b1) 8).
  { rewrite <- (lor_shiftl_add (otp.int b0) (otp.int b1) 8) by lia.
    rewrite Z.shiftl_lor, Z.shiftl_shiftl by lia. done. }
  rewrite E1, lor_shiftl_add by lia.
  rewrite Z.rem_mod_nonneg by lia. f_equal. lia.
Qed.

(** *** Counting the inputs of a code *)

Lemma int_all_bytes : otp.int <$> otp.all_bytes = seqZ 0 256.
Proof. vm_compute. reflexivity. Qed.

Lemma fmap_bind_list {A B C} (f : B -> C) (g : A -> list B) (l : list A) :
  f <$> (l ≫= g) = l ≫= (fun x => f <$> g x).
Proof.
  induction l as [|x l IH]; [done|].
  rewrite !bind_cons, fmap_app, IH. done.
Qed.

(** [m] consecutive blocks of [n] numbers are the first [m * n] numbers. *)
Lemma bind_seqZ_blocks (n : Z) (m : nat) :
  0 <= n ->
  (seqZ 0 (Z.of_nat m) ≫= fun x => Z.add (x * n) <$> seqZ 0 n)
  = seqZ 0 (Z.of_nat m * n).
Proof.
  intros Hn. induction m as [|m IH]; [done|].
  rewrite seqZ_S, bind_app, IH, bind_singleton, fmap_add_seqZ.
  rewrite Z.add_0_l, Z.add_0_r.
  rewrite <- (Z.add_0_l (Z.of_nat m * n)) at 2.
  rewrite <- seqZ_app by lia. f_equal. lia.
Qed.

Lemma bytes_value_last b0 b1 :
  otp.bytes_value <$> (otp.all_bytes ≫= fun b2 => [(b0, b1, b2)])
  = Z.add ((otp.int b0 * 256 + otp.int b1) * 256) <$> seqZ 0 256.
Proof.
  rewrite <- int_all_bytes, <- list_fmap_compose, fmap_bind_list.
  induction otp.all_bytes as [|b2 bs IH]; [done|].
  rewrite bind_cons, fmap_cons, IH. simpl. f_equal.
  unfold otp.bytes_value. simpl. lia.
Qed.

Lemma bytes_value_middle b0 :
  otp.bytes_value
    <$> (otp.all_bytes ≫= fun b1 => otp.all_bytes ≫= fun b2 => [(b0, b1, b2)])
  = Z.add (otp.int b0 * 65536) <$> seqZ 0 65536.
Proof.
  rewrite fmap_bind_list.
  rewrite (list_bind_ext _
             (fun b1 => Z.add ((otp.int b0 * 256 + otp.int b1) * 256)
                          <$> seqZ 0 256) _ otp.all_bytes
             (bytes_value_last b0) eq_refl).
  replace 65536 with (Z.of_nat 256 * 256) at 2 by reflexivity.
  rewrite <- (bind_seqZ_blocks 256 256) by lia.
  change (Z.of_nat 256) with 256.
  rewrite fmap_bind_list, <- int_all_bytes at 1.
  rewrite list_fmap_bind.
  apply list_bind_ext; [|done]. intros b1. unfold compose. cbv beta.
  rewrite <- list_fmap_compose. apply list_fmap_ext. intros _ x _.
  unfold compose. lia.
Qed.

Lemma bytes_value_triples :
  otp.bytes_value <$> otp.triples = seqZ 0 (Z.of_nat 256 * 65536).
Proof.
  unfold otp.triples. rewrite fmap_bind_list.
  rewrite (list_bind_ext _
             (fun b0 => Z.add (otp.int b0 * 65536) <$> seqZ 0 65536)
             _ otp.all_bytes bytes_value_middle eq_refl).
  etrans; [|apply (bind_seqZ_blocks 65536 256); lia].
  generalize (seqZ 0 65536). intros L.
  change (Z.of_nat 256) with 256.
  rewrite <- int_all_bytes. by rewrite list_fmap_bind.
Qed.

Lemma length_filter_fmap {A B} (f : A -> B) (P : B -> Prop)
    `{!forall y, Decision (P y)} (l : list A) :
  length (filter P (f <$> l)) = length (filter (fun x => P (f x)) l).
Proof.
  induction l as [|x l IH]; [done|].
  rewrite fmap_cons, !filter_cons. repeat case_decide; simpl; lia.
Qed.

(** Among the first [n] numbers, how many leave the remainder [c]. *)
Lemma count_mod_seqZ (M c : Z) (n : nat) :
  0 <= c < M ->
  Z.of_nat (length (filter (fun v => v mod M = c) (seqZ 0 (Z.of_nat n))))
  = (Z.of_nat n + M - 1 - c) / M.
Proof.
  intros Hc. induction n as [|n IH].
  - simpl. symmetry. apply Z.div_small. lia.
  - rewrite seqZ_S, filter_app, length_app, Nat2Z.inj_add, IH, Z.add_0_l.
    clear IH. rewrite filter_cons, filter_nil.
    pose proof (Z.div_mod (Z.of_nat n) M ltac:(lia)) as Hdm.
    pose proof (Z.mod_pos_bound (Z.of_nat n) M ltac:(lia)) as Hr.
    set (q := Z.of_nat n / M) in *. set (rm := Z.of_nat n mod M) in *.
    rewrite Nat2Z.inj_succ.
    case_decide as Heq; simpl length.
    + assert ((Z.of_nat n + M - 1 - c) / M = q) as ->
        by (symmetry; apply Z.div_unique with (r := M - 1); lia).
      assert ((Z.succ (Z.of_nat n) + M - 1 - c) / M = q + 1) as ->
        by (symmetry; apply Z.div_unique with (r := 0); lia).
      lia.
    + destruct (Z.lt_ge_cases rm c).
      * assert ((Z.of_nat n + M - 1 - c) / M = q) as ->
          by (symmetry; apply Z.div_unique with (r := rm + M - 1 - c); lia).
        assert ((Z.succ (Z.of_nat n) + M - 1 - c) / M = q) as ->
          by (symmetry; apply Z.div_unique with (r := rm + M - c); lia).
        lia.
      * assert ((Z.of_nat n + M - 1 - c) / M = q + 1) as ->
          by (symmetry; apply Z.div_unique with (r := rm - 1 - c); lia).
        assert ((Z.succ (Z.of_nat n) + M - 1 - c) / M = q + 1) as ->
          by (symmetry; apply Z.div_unique with (r := rm - c); lia).
        lia.
Qed.

Lemma count_mod_seqZ_Z (M c n : Z) :
  0 <= c < M -> 0 <= n ->
  Z.of_nat (length (filter (fun v => v mod M = c) (seqZ 0 n)))
  = (n + M - 1 - c) / M.
Proof.
  intros Hc Hn. rewrite <- (Z2Nat.id n) by done. by apply count_mod_seqZ.
Qed.

Lemma preimage_count_value c :
  0 <= c < 1000000 ->
  otp.preimage_count c = if c <? 777216 then 17%nat else 16%nat.
Proof.
  intros Hc. unfold otp.preimage_count.
  rewrite (list_filter_iff _
             (fun t => otp.bytes_value t mod 1000000 = c)).
  2: { intros [[b0 b1] b2]. simpl. by rewrite code_number_value. }
  pose proof (length_filter_fmap otp.bytes_value
                (fun v => v mod 1000000 = c) otp.triples) as E.
  etrans; [symmetry; exact E|]. clear E.
  rewrite bytes_value_triples.
  apply Nat2Z.inj.
  rewrite (count_mod_seqZ_Z 1000000 c _ Hc) by lia.
  destruct (Z.ltb_spec c 777216).
  - symmetry. apply Z.div_unique with (r := 777215 - c); lia.
  - symmetry. apply Z.div_unique with (r := 1777215 - c); lia.
Qed.

Lemma int_inj b b' : otp.int b = otp.int b' -> b = b'.
Proof.
  unfold otp.int. intros H. apply N2Z.inj in H.
  pose proof (Byte.of_to_N b) as E. rewrite H, Byte.of_to_N in E. congruence.
Qed.

Lemma all_bytes_complete b : b ∈ otp.all_bytes.
Proof.
  assert (H : otp.int b ∈ otp.int <$> otp.all_bytes).
  { rewrite int_all_bytes. apply elem_of_seqZ. pose proof (int_range b). lia. }
  apply list_elem_of_fmap in H as (b' & Hb' & Hin).
  by rewrite (int_inj b b' Hb').
Qed.

Lemma triples_complete t : t ∈ otp.triples.
Proof.
  destruct t as [[b0 b1] b2]. unfold otp.triples.
  apply list_elem_of_bind. exists b0. split; [|apply all_bytes_complete].
  apply list_elem_of_bind. exists b1. split; [|apply all_bytes_complete].
  apply list_elem_of_bind. exists b2. split; [|apply all_bytes_complete].
  apply list_elem_of_singleton. done.
Qed.

Lemma triples_NoDup : NoDup otp.triples.
Proof.
  apply (NoDup_fmap_1 otp.bytes_value). rewrite bytes_value_triples.
  apply NoDup_seqZ.
Qed.

Lemma GenerateOTP_six_digits read :
  String.length (otp.GenerateOTP read) = 6%nat
  /\ Forall otp.is_digit (list_ascii_of_string (otp.GenerateOTP read)).
Proof.
  destruct read as [[[b0 b1] b2]|e]; simpl.
  - apply Sprintf_06d_six_digits. rewrite code_number_value.
    apply Z.mod_pos_bound. lia.
  - split; [done|]. repeat constructor; unfold otp.is_digit; simpl; lia.
Qed.

(** C8, as the code has it. [GenerateOTP] always returns exactly six
    decimal digits. The code is not uniform over 000000-999999: the list
    of three-byte inputs has each input once, and a code below 777216 has
    17 inputs while each other code has 16. *)
Theorem GenerateOTP_six_digits_biased :
  (forall read,
     String.length (otp.GenerateOTP read) = 6%nat
     /\ Forall otp.is_digit (list_ascii_of_string (otp.GenerateOTP read)))
  /\ (forall t, t ∈ otp.triples)
  /\ NoDup otp.triples
  /\ (forall c, 0 <= c < 1000000 ->
        otp.preimage_count c = if c <? 777216 then 17%nat else 16%nat).
Proof.
  split; [exact GenerateOTP_six_digits|].
  split; [exact triples_complete|].
  split; [exact triples_NoDup|].
  exact preimage_count_value.
Qed.

Lemma GenerateOTP_six_digits_biased_witness :
  otp.preimage_count 482913 = 17%nat /\ otp.preimage_count 999999 = 16%nat.
Proof.
  destruct GenerateOTP_six_digits_biased as (_ & _ & _ & H).
  split; [apply (H 482913) | apply (H 999999)]; lia.
Defined.

(** C8 as stated fails: the codes 000000 and 999999 do not have the same
    number of three-byte inputs. *)
Lemma GenerateOTP_not_uniform :
  ~ (forall c1 c2, 0 <= c1 < 1000000 -> 0 <= c2 < 1000000 ->
       otp.preimage_count c1 = otp.preimage_count c2).
Proof.
  intros H. specialize (H 0 999999 ltac:(lia) ltac:(lia)).
  rewrite !preimage_count_value in H by lia. discriminate H.
Qed.

(** C5, what the code does. When the read of [crypto/rand] fails,
    [GenerateOTP] returns the fixed code "000000" and [SendOTP] goes on:
    unless the limiter refuses the call, it reports success and the stored
    code is "000000". On the freshly wired service the call succeeds. *)
Theorem entropy_failure_gives_fixed_code :
  (forall e, otp.GenerateOTP (Err e) = "000000"%string)
  /\ (forall r phone e t1 t2 id t3,
        let env := auth.mkSendEnv t1 (Err e) t2 id t3 in
        let out := auth.SendOTP r env phone in
        out.1 = Some ErrRateLimitExceeded
        \/ (out.1 = None
            /\ model.OTPCode <$> database.otps (auth.otpStore out.2) !! phone
               = Some "000000"%string))
  /\ (let env := auth.mkSendEnv 0 (Err (Errorf "unexpected EOF")) 0 7 0 in
      let out := auth.SendOTP main.authRepo env sample_phone in
      out.1 = None
      /\ model.OTPCode <$> database.otps (auth.otpStore out.2) !! sample_phone
         = Some "000000"%string).
Proof.
  split; [done|]. split.
  - intros r phone e t1 t2 id t3 env out. subst out env.
    unfold auth.SendOTP, auth.AllowOTPRate. simpl.
    destruct (middleware.Allow _ _ _) as [[] l']; simpl.
    + right. split; [done|]. by rewrite lookup_insert_eq.
    + by left.
  - vm_compute. done.
Qed.

(** ** VerifyOTPAndAuthenticate *)

Section Verify.

Variable hash_available : jwt.HMACAlg -> bool.
Variable HMAC : jwt.HMACAlg -> string -> jwt.SigningString -> string.
Variable uuid_String : Z -> string.
Variable jwtSecret : string.

Let Verify := auth.VerifyOTPAndAuthenticate hash_available HMAC uuid_String jwtSecret.
Let step := auth.step hash_available HMAC uuid_String jwtSecret.
Let run := auth.run hash_available HMAC uuid_String jwtSecret.

(** A failed check returns [ErrInvalidOTP] and leaves the stores alone. *)
Lemma Verify_check_fails r env phone code :
  ~ otp_check_passes r (auth.expired_now env) phone code ->
  Verify r env phone code = (Err ErrInvalidOTP, r).
Proof.
  intros Hno. unfold Verify, auth.VerifyOTPAndAuthenticate.
  destruct (auth.GetOTP r phone) as [stored|e] eqn:Hget; [|done].
  destruct (String.eqb_spec (model.OTPCode stored) code) as [Heq|Hne]; [|done].
  destruct (model.IsExpired (auth.expired_now env) stored) eqn:Hexp; [done|].
  exfalso. apply Hno. by exists stored.
Qed.

(** A passed check deletes the stored code, and the call never answers
    [ErrInvalidOTP]. *)
Lemma Verify_check_passes r env phone code :
  otp_check_passes r (auth.expired_now env) phone code ->
  let out := Verify r env phone code in
  database.otps (auth.otpStore out.2)
  = delete phone (database.otps (auth.otpStore r))
  /\ out.1 <> Err ErrInvalidOTP.
Proof.
  intros (stored & Hget & Hcode & Hexp).
  unfold Verify, auth.VerifyOTPAndAuthenticate. rewrite Hget.
  apply String.eqb_eq in Hcode. rewrite Hcode, Hexp. simpl.
  unfold auth.GetUserByPhoneNumber, auth.CreateUser,
    database.GetUserByPhoneNumber, database.CreateUser. simpl.
  destruct (database.phoneIndex (auth.userStore r) !! phone) as [id|]; simpl.
  - destruct (database.users (auth.userStore r) !! id) as [user|]; simpl; [|done].
    destruct (auth.generateJWT _ _ _ _ _ _ _ _) as [tok|e]; simpl; done.
  - destruct (auth.generateJWT _ _ _ _ _ _ _ _) as [tok|e]; simpl; done.
Qed.

Lemma Verify_ok_check r env phone code tok :
  (Verify r env phone code).1 = Ok tok ->
  otp_check_passes r (auth.expired_now env) phone code.
Proof.
  unfold Verify, auth.VerifyOTPAndAuthenticate.
  destruct (auth.GetOTP r phone) as [stored|e] eqn:Hget; [|done].
  destruct (String.eqb_spec (model.OTPCode stored) code) as [Heq|Hne]; [|done].
  destruct (model.IsExpired (auth.expired_now env) stored) eqn:Hexp; [done|].
  intros _. by exists stored.
Qed.

(** Without a stored code the check cannot pass. *)
Lemma no_otp_no_check r now phone code :
  database.otps (auth.otpStore r) !! phone = None ->
  ~ otp_check_passes r now phone code.
Proof.
  intros Hnone (stored & Hget & _). unfold auth.GetOTP, database.GetOTP in Hget.
  by rewrite Hnone in Hget.
Qed.

(** The service function is the run of its repository calls. *)
Lemma Verify_run r env phone code :
  run env 5 r (auth.AtGetOTP phone code)
  = (auth.Returned (Verify r env phone code).1, (Verify r env phone code).2).
Proof.
  unfold run, Verify, auth.VerifyOTPAndAuthenticate. simpl.
  destruct (auth.GetOTP r phone) as [stored|e]; [|done].
  destruct (negb _ || _); [done|]. simpl.
  destruct (auth.GetUserByPhoneNumber _ phone) as [user|err]; simpl.
  - destruct (auth.generateJWT _ _ _ _ _ _ _ _); done.
  - destruct (errors_Is err ErrUserNotFound); simpl; [|done].
    destruct (auth.CreateUser _ _ _ _ _) as [[created|e] r']; simpl; [|done].
    destruct (auth.generateJWT _ _ _ _ _ _ _ _); done.
Qed.

(** C2. A code authenticates once: when [VerifyOTPAndAuthenticate] returns
    a token, it has removed the stored code of that phone number, and the
    next call for the phone number, with the same code or another and at
    any time, fails with [ErrInvalidOTP]; so does a call in any later state
    in which no new code has been stored for the phone number. *)
Theorem verified_code_is_single_use :
  forall r env phone code tok,
    (Verify r env phone code).1 = Ok tok ->
    database.otps (auth.otpStore (Verify r env phone code).2) !! phone = None
    /\ (forall env' code',
         Verify (Verify r env phone code).2 env' phone code'
         = (Err ErrInvalidOTP, (Verify r env phone code).2))
    /\ (forall r' env' code',
         database.otps (auth.otpStore r') !! phone = None ->
         Verify r' env' phone code' = (Err ErrInvalidOTP, r')).
Proof.
  intros r env phone code tok Hok.
  assert (Hany : forall r' env' code',
            database.otps (auth.otpStore r') !! phone = None ->
            Verify r' env' phone code' = (Err ErrInvalidOTP, r')).
  { intros r' env' code' Hnone'. apply Verify_check_fails.
    by apply no_otp_no_check. }
  apply Verify_ok_check in Hok.
  destruct (Verify_check_passes r env phone code Hok) as [Hdel _].
  assert (Hnone : database.otps (auth.otpStore (Verify r env phone code).2)
                  !! phone = None).
  { rewrite Hdel. apply lookup_delete_eq. }
  split; [done|]. split; [|done]. intros env' code'. by apply Hany.
Qed.

(** C10. Once the OTP check has passed the stored code is gone, whatever
    the call returns: the second repository call deletes it before the
    account is looked up, and the store at the end of the call holds no
    code for the phone number, also when the result is an error. *)
Theorem passed_check_consumes_code :
  forall r env phone code,
    otp_check_passes r (auth.expired_now env) phone code ->
    (exists r1,
       run env 2 r (auth.AtGetOTP phone code) = (auth.AtGetUser phone, r1)
       /\ database.otps (auth.otpStore r1) !! phone = None
       /\ auth.userStore r1 = auth.userStore r)
    /\ run env 5 r (auth.AtGetOTP phone code)
       = (auth.Returned (Verify r env phone code).1, (Verify r env phone code).2)
    /\ database.otps (auth.otpStore (Verify r env phone code).2) !! phone = None
    /\ forall env' code',
         (Verify (Verify r env phone code).2 env' phone code').1
         = Err ErrInvalidOTP.
Proof.
  intros r env phone code Hpass.
  destruct (Verify_check_passes r env phone code Hpass) as [Hdel _].
  assert (Hnone : database.otps (auth.otpStore (Verify r env phone code).2)
                  !! phone = None).
  { rewrite Hdel. apply lookup_delete_eq. }
  split; [|split; [apply Verify_run|split; [done|]]].
  - destruct Hpass as (stored & Hget & Hcode & Hexp).
    eexists. unfold run. simpl. rewrite Hget.
    apply String.eqb_eq in Hcode. rewrite Hcode, Hexp. simpl.
    split; [reflexivity|]. simpl. split; [apply lookup_delete_eq|done].
  - intros env' code'. rewrite Verify_check_fails; [done|].
    by apply no_otp_no_check.
Qed.

(** C7, as the code has it. [IsExpired] is [time.Now().After(ExpiresAt)]:
    a stored code is refused with [ErrInvalidOTP], exactly as a missing
    one and with the record left in the store, when the clock reads
    strictly after [ExpiresAt]; up to and including the instant
    [ExpiresAt] itself a matching code passes the check. *)
Theorem expiry_check_is_strict :
  forall r env phone code stored,
    auth.GetOTP r phone = Ok stored ->
    (model.ExpiresAt stored < auth.expired_now env ->
       Verify r env phone code = (Err ErrInvalidOTP, r)
       /\ auth.GetOTP (Verify r env phone code).2 phone = Ok stored)
    /\ (auth.expired_now env <= model.ExpiresAt stored ->
        model.OTPCode stored = code ->
        (Verify r env phone code).1 <> Err ErrInvalidOTP)
    /\ (forall r0, database.otps (auth.otpStore r0) !! phone = None ->
        Verify r0 env phone code = (Err ErrInvalidOTP, r0)).
Proof.
  intros r env phone code stored Hget. split; [|split].
  - intros Hlate.
    rewrite Verify_check_fails; [done|].
    intros (stored' & Hget' & _ & Hexp). rewrite Hget in Hget'.
    injection Hget' as <-. unfold model.IsExpired, time.After in Hexp.
    apply Z.ltb_ge in Hexp. lia.
  - intros Hnow Hcode. apply Verify_check_passes.
    exists stored. split; [done|]. split; [done|].
    unfold model.IsExpired, time.After. apply Z.ltb_ge. lia.
  - intros r0 Hnone. apply Verify_check_fails. by apply no_otp_no_check.
Qed.

(** C6, as the code has it. A call whose lookup reported no user and that
    finds the phone number taken when it creates the user (another call
    created it in between) gets [ErrAlreadyExists] from [CreateUser] and
    returns [ErrUserRegistration]: the account is not read again and no
    token is made. *)
Theorem lost_creation_is_an_error :
  forall r env phone id,
    database.phoneIndex (auth.userStore r) !! phone = Some id ->
    (exists e,
       (auth.CreateUser r
          {| model.ID := 0; model.PhoneNumber := phone;
             model.CreatedAt := time.zeroTime; model.UpdatedAt := time.zeroTime |}
          (auth.user_id env) (auth.created_now env) (auth.updated_now env)).1
       = Err e
       /\ errors_Is e ErrAlreadyExists = true)
    /\ step env r (auth.AtCreateUser phone)
       = (auth.Returned (Err ErrUserRegistration), r)
    /\ forall n, run env (S n) r (auth.AtCreateUser phone)
                 = (auth.Returned (Err ErrUserRegistration), r).
Proof.
  intros r env phone id Hidx.
  assert (Hstep : step env r (auth.AtCreateUser phone)
                  = (auth.Returned (Err ErrUserRegistration), r)).
  { unfold step, auth.step, auth.CreateUser, database.CreateUser. simpl.
    rewrite Hidx. by destruct r as [[] ? ?]. }
  split; [|split; [done|]].
  - unfold auth.CreateUser, database.CreateUser. simpl. rewrite Hidx.
    eexists. split; reflexivity.
  - intros n.
    change (run env (S n) r (auth.AtCreateUser phone))
      with (let '(c', r') := step env r (auth.AtCreateUser phone) in
            run env n r' c').
    rewrite Hstep. induction n as [|n IH]; [done|]. exact IH.
Qed.

End Verify.

(** ** Closed instances on the sample service *)

Lemma verified_code_is_single_use_witness :
  let out1 := sample_Verify sample_after_send (sample_verify 30 1)
                            sample_phone "482913" in
  (exists tok, out1.1 = Ok tok)
  /\ database.otps (auth.otpStore out1.2) !! sample_phone = None
  /\ sample_Verify out1.2 (sample_verify 40 2) sample_phone "482913"
     = (Err ErrInvalidOTP, out1.2).
Proof.
  intros out1.
  assert (Hok : exists tok, out1.1 = Ok tok).
  { eexists. vm_compute. reflexivity. }
  destruct Hok as [tok Hok].
  destruct (verified_code_is_single_use
              sample_hash_available sample_HMAC sample_uuid_String sample_secret
              sample_after_send (sample_verify 30 1) sample_phone "482913" tok Hok)
    as (H1 & H2 & _).
  split; [by exists tok|]. split; [exact H1|]. apply H2.
Defined.

Lemma passed_check_consumes_code_witness :
  let out := auth.VerifyOTPAndAuthenticate
               (fun _ => false) sample_HMAC sample_uuid_String sample_secret
               sample_after_send (sample_verify 30 1) sample_phone "482913" in
  out.1 = Err ErrJWTGeneration
  /\ database.otps (auth.otpStore out.2) !! sample_phone = None.
Proof.
  intros out. split; [vm_compute; reflexivity|].
  refine (proj1 (proj2 (proj2 (passed_check_consumes_code
            (fun _ => false) sample_HMAC sample_uuid_String sample_secret
            sample_after_send (sample_verify 30 1) sample_phone "482913" _)))).
  eexists. split; [vm_compute; reflexivity|]. split; vm_compute; reflexivity.
Defined.

Lemma expiry_check_is_strict_witness :
  sample_Verify sample_after_send (sample_verify 121 1) sample_phone "482913"
  = (Err ErrInvalidOTP, sample_after_send)
  /\ (sample_Verify sample_after_send (sample_verify 120 1)
                    sample_phone "482913").1 <> Err ErrInvalidOTP.
Proof.
  pose (stored := {| model.OTP_ID := 7;
                     model.OTP_PhoneNumber := sample_phone;
                     model.OTPCode := "482913";
                     model.OTP_CreatedAt := 0;
                     model.ExpiresAt := 120 * time.Second |}).
  assert (Hget : auth.GetOTP sample_after_send sample_phone = Ok stored)
    by (vm_compute; reflexivity).
  split.
  - apply (proj1 (expiry_check_is_strict
             sample_hash_available sample_HMAC sample_uuid_String sample_secret
             sample_after_send (sample_verify 121 1) sample_phone "482913"
             stored Hget)).
    vm_compute. reflexivity.
  - apply (proj1 (proj2 (expiry_check_is_strict
             sample_hash_available sample_HMAC sample_uuid_String sample_secret
             sample_after_send (sample_verify 120 1) sample_phone "482913"
             stored Hget))).
    + vm_compute. discriminate.
    + reflexivity.
Defined.

(** C7 as stated fails at the boundary: with the clock reading exactly
    [ExpiresAt] (second 120 for a code stored at second 0), the matching
    code is accepted and a token is returned. *)
Lemma verify_at_expiry_instant_is_accepted :
  exists stored tok,
    auth.GetOTP sample_after_send sample_phone = Ok stored
    /\ auth.expired_now (sample_verify 120 1) >= model.ExpiresAt stored
    /\ (sample_Verify sample_after_send (sample_verify 120 1)
                      sample_phone "482913").1 = Ok tok.
Proof.
  do 2 eexists. split; [vm_compute; reflexivity|].
  split; [vm_compute; discriminate|]. vm_compute. reflexivity.
Qed.

Lemma lost_creation_is_an_error_witness :
  let r := (sample_Verify sample_after_send (sample_verify 30 1)
                          sample_phone "482913").2 in
  auth.step sample_hash_available sample_HMAC sample_uuid_String sample_secret
            (sample_verify 30 2) r (auth.AtCreateUser sample_phone)
  = (auth.Returned (Err ErrUserRegistration), r).
Proof.
  intros r.
  refine (proj1 (proj2 (lost_creation_is_an_error
            sample_hash_available sample_HMAC sample_uuid_String sample_secret
            r (sample_verify 30 2) sample_phone 1 _))).
  vm_compute. reflexivity.
Defined.

(** C6 as stated fails. Two calls verify the same code; both find the OTP
    and then no user. The first creates the user; the second, whose lookup
    had reported no user, then gets [ErrAlreadyExists] from [CreateUser]
    and returns [ErrUserRegistration] although the account now exists. *)
Lemma lost_creation_race_returns_error :
  let before :=
    sample_interleave [auth.First; auth.Second; auth.First; auth.Second;
                       auth.First; auth.Second; auth.First] in
  let after :=
    sample_interleave [auth.First; auth.Second; auth.First; auth.Second;
                       auth.First; auth.Second; auth.First; auth.Second] in
  before.1.2 = auth.AtCreateUser sample_phone
  /\ (exists user, auth.GetUserByPhoneNumber before.2 sample_phone = Ok user)
  /\ after.1.2 = auth.Returned (Err ErrUserRegistration)
  /\ after.2 = before.2.
Proof.
  intros before after. split; [vm_compute; reflexivity|].
  split; [eexists; vm_compute; reflexivity|].
  split; vm_compute; reflexivity.
Qed.

(** C1, what the code does. [GetOTP] and [DeleteOTP] are two repository
    calls. Run one after the other, two calls with the stored code give
    one token and one [ErrInvalidOTP]; when both calls read the code before
    either deletes it, both return a token. *)
Theorem concurrent_verifies_both_get_tokens :
  (let one_by_one :=
     sample_interleave [auth.First; auth.First; auth.First; auth.First;
                        auth.First; auth.Second; auth.Second; auth.Second;
                        auth.Second; auth.Second] in
   (exists tok, one_by_one.1.1 = auth.Returned (Ok tok))
   /\ one_by_one.1.2 = auth.Returned (Err ErrInvalidOTP))
  /\ (let interleaved :=
        sample_interleave [auth.First; auth.Second; auth.First; auth.Second;
                           auth.First; auth.First; auth.First;
                           auth.Second; auth.Second] in
      (exists tok, interleaved.1.1 = auth.Returned (Ok tok))
      /\ (exists tok, interleaved.1.2 = auth.Returned (Ok tok))).
Proof.
  split.
  - split; [eexists|]; vm_compute; reflexivity.
  - split; eexists; vm_compute; reflexivity.
Qed.

(** ** Tokens *)

Section Tokens.

Variable hash_available : jwt.HMACAlg -> bool.
Variable HMAC : jwt.HMACAlg -> string -> jwt.SigningString -> string.
Variable uuid_String : Z -> string.
Variable uuid_Parse : string -> option Z.

Let generateJWT := auth.generateJWT hash_available HMAC uuid_String.
Let AuthMiddleware := middleware.AuthMiddleware hash_available HMAC uuid_Parse.

(** What [generateJWT] returns when it returns a token. *)
Lemma generateJWT_ok jwtSecret userID phoneNumber t_iat t_exp tok :
  generateJWT jwtSecret userID phoneNumber t_iat t_exp = Ok tok ->
  hash_available jwt.HS256 = true
  /\ jwt.Header tok = jwt.SigningMethodHMAC jwt.HS256
  /\ jwt.Signature tok
     = HMAC jwt.HS256 jwtSecret (jwt.Header tok, jwt.Payload tok)
  /\ jwt.Payload tok !! "sub"%string = Some (jwt.ClaimString (uuid_String userID))
  /\ jwt.Payload tok !! "phone"%string = Some (jwt.ClaimString phoneNumber)
  /\ jwt.Payload tok !! "exp"%string
     = Some (jwt.ClaimNumber (time.Unix (time.Add t_exp (time.Hour * 24))))
  /\ jwt.Payload tok !! "nbf"%string = None.
Proof.
  unfold generateJWT, auth.generateJWT, jwt.SignedString, jwt.Sign.
  destruct (hash_available jwt.HS256); [|done].
  intros [= <-]. simpl. repeat split; by simplify_map_eq.
Qed.

(** The validator passes exactly when neither time check fails. *)
Lemma Validate_passes now claims :
  jwt.Validate now claims = None
  <-> jwt.verifyExpiresAt now claims = None
      /\ jwt.verifyNotBefore now claims = None.
Proof.
  unfold jwt.Validate. simpl.
  destruct (jwt.verifyExpiresAt now claims), (jwt.verifyNotBefore now claims);
    simpl; (split; [done|by intros [? ?]]).
Qed.

(** A token without "nbf" whose "exp" second is 0 or lies after the clock
    passes the validator. *)
Lemma Validate_exp_ahead now claims e :
  claims !! "exp"%string = Some (jwt.ClaimNumber e) ->
  claims !! "nbf"%string = None ->
  e = 0 \/ now < time.FromUnix e ->
  jwt.Validate now claims = None.
Proof.
  intros Hexp Hnbf He. apply Validate_passes.
  unfold jwt.verifyExpiresAt, jwt.verifyNotBefore, jwt.parseNumericDate.
  rewrite Hexp, Hnbf. split; [|done].
  destruct (decide (e = 0)); [done|].
  unfold time.Before. destruct (Z.ltb_spec now (time.FromUnix e)); [done|lia].
Qed.

(** A token without "nbf" whose "exp" second is not 0 and does not lie
    after the clock fails the validator with "token is expired". *)
Lemma Validate_exp_passed now claims e :
  claims !! "exp"%string = Some (jwt.ClaimNumber e) ->
  claims !! "nbf"%string = None ->
  e <> 0 -> time.FromUnix e <= now ->
  jwt.Validate now claims = Some (Errorf "token is expired").
Proof.
  intros Hexp Hnbf He Hnow.
  unfold jwt.Validate, jwt.verifyExpiresAt, jwt.verifyNotBefore,
    jwt.parseNumericDate.
  rewrite Hexp, Hnbf. rewrite decide_False by done.
  unfold time.Before. by destruct (Z.ltb_spec now (time.FromUnix e)); [lia|].
Qed.

(** The middleware on a token of the HMAC family whose signature is the
    MAC under the secret, with claims that pass the validator and name a
    user. *)
Lemma AuthMiddleware_accepts jwtSecret now alg claims sub userID phoneNumber :
  hash_available alg = true ->
  jwt.Validate now claims = None ->
  claims !! "sub"%string = Some (jwt.ClaimString sub) ->
  uuid_Parse sub = Some userID ->
  claims !! "phone"%string = Some (jwt.ClaimString phoneNumber) ->
  AuthMiddleware jwtSecret now
    {| jwt.Header := jwt.SigningMethodHMAC alg;
       jwt.Payload := claims;
       jwt.Signature := HMAC alg jwtSecret (jwt.SigningMethodHMAC alg, claims) |}
  = middleware.Next {| model.ID := userID;
                       model.PhoneNumber := phoneNumber;
                       model.CreatedAt := time.zeroTime;
                       model.UpdatedAt := time.zeroTime |}.
Proof.
  intros Hhash Hval Hsub Huuid Hphone.
  unfold AuthMiddleware, middleware.AuthMiddleware, jwt.Parse,
    middleware.keyFunc, jwt.Verify. simpl.
  rewrite Hhash, decide_True by done. rewrite Hval. simpl.
  by rewrite Hsub, Huuid, Hphone.
Qed.

(** C9. Token round trip. A token made by [generateJWT] and checked by
    [AuthMiddleware] with the same secret is accepted while the clock is
    before its "exp" instant, and gives back the account id (from "sub",
    given that [uuid.Parse] reads back what [String] wrote for that id)
    and the phone number (from "phone"). "exp" is the whole second of 24
    hours after minting; from that instant on the token is refused as
    expired, unless that second is second 0 of the epoch, which the
    validator reads as no "exp" at all: such a token is accepted at every
    instant. A token whose signing method is outside the HMAC family is
    refused by the key function. A token of the HMAC family is refused
    when its signature is not the MAC of its header and claims under the
    secret for the algorithm its own header names, or when that
    algorithm's hash is not linked in. The algorithm itself is not
    compared with HS256: the minted claims signed under the secret with
    any available algorithm of the family are accepted as well. *)
Theorem token_round_trip :
  forall jwtSecret userID phoneNumber t_iat t_exp tok,
    uuid_Parse (uuid_String userID) = Some userID ->
    generateJWT jwtSecret userID phoneNumber t_iat t_exp = Ok tok ->
    let exp_unix := time.Unix (time.Add t_exp (time.Hour * 24)) in
    let exp := time.FromUnix exp_unix in
    let user := {| model.ID := userID;
                   model.PhoneNumber := phoneNumber;
                   model.CreatedAt := time.zeroTime;
                   model.UpdatedAt := time.zeroTime |} in
    (exp <= t_exp + 24 * time.Hour < exp + time.Second)
    /\ (forall now, now < exp ->
          AuthMiddleware jwtSecret now tok = middleware.Next user)
    /\ (forall now, exp <= now -> exp_unix <> 0 ->
          AuthMiddleware jwtSecret now tok
          = middleware.Abort
              (middleware.JSON 401
                 "Invalid token: token has invalid claims: token is expired"))
    /\ (exp_unix = 0 ->
        forall now, AuthMiddleware jwtSecret now tok = middleware.Next user)
    /\ (forall now alg claims sig,
          AuthMiddleware jwtSecret now
            {| jwt.Header := jwt.SigningMethodOther alg;
               jwt.Payload := claims;
               jwt.Signature := sig |}
          = middleware.Abort
              (middleware.JSON 401
                 "Invalid token: token is unverifiable: error while executing keyfunc: unexpected signing method"))
    /\ (forall now alg claims sig,
          hash_available alg = true ->
          sig <> HMAC alg jwtSecret (jwt.SigningMethodHMAC alg, claims) ->
          AuthMiddleware jwtSecret now
            {| jwt.Header := jwt.SigningMethodHMAC alg;
               jwt.Payload := claims;
               jwt.Signature := sig |}
          = middleware.Abort
              (middleware.JSON 401
                 "Invalid token: token signature is invalid: signature is invalid"))
    /\ (forall now alg claims sig,
          hash_available alg = false ->
          AuthMiddleware jwtSecret now
            {| jwt.Header := jwt.SigningMethodHMAC alg;
               jwt.Payload := claims;
               jwt.Signature := sig |}
          = middleware.Abort
              (middleware.JSON 401
                 "Invalid token: token signature is invalid: the requested hash function is unavailable"))
    /\ (forall now alg,
          hash_available alg = true -> now < exp ->
          AuthMiddleware jwtSecret now
            {| jwt.Header := jwt.SigningMethodHMAC alg;
               jwt.Payload := jwt.Payload tok;
               jwt.Signature :=
                 HMAC alg jwtSecret
                   (jwt.SigningMethodHMAC alg, jwt.Payload tok) |}
          = middleware.Next user).
Proof.
  intros jwtSecret userID phoneNumber t_iat t_exp tok Huuid Hgen exp_unix exp user.
  apply generateJWT_ok in Hgen
    as (Hhash & Hhdr & Hsig & Hsub & Hphone & Hexp & Hnbf).
  fold exp_unix in Hexp.
  assert (Htok : tok = {| jwt.Header := jwt.SigningMethodHMAC jwt.HS256;
                          jwt.Payload := jwt.Payload tok;
                          jwt.Signature :=
                            HMAC jwt.HS256 jwtSecret
                              (jwt.SigningMethodHMAC jwt.HS256, jwt.Payload tok) |}).
  { destruct tok as [hdr claims sig]. simpl in *. by subst hdr sig. }
  refine (conj _ (conj _ (conj _ (conj _ (conj _ (conj _ (conj _ _))))))).
  - subst exp exp_unix. unfold time.FromUnix, time.Unix, time.Add.
    pose proof (Z.div_mod (t_exp + time.Hour * 24) time.Second ltac:(done)).
    pose proof (Z.mod_pos_bound (t_exp + time.Hour * 24) time.Second ltac:(done)).
    lia.
  - intros now Hnow. rewrite Htok.
    apply AuthMiddleware_accepts with (sub := uuid_String userID); try done.
    apply Validate_exp_ahead with (e := exp_unix); auto.
  - intros now Hnow Hne. rewrite Htok.
    unfold AuthMiddleware, middleware.AuthMiddleware, jwt.Parse,
      middleware.keyFunc, jwt.Verify. simpl.
    rewrite Hhash, decide_True by done.
    by rewrite (Validate_exp_passed now _ exp_unix).
  - intros Hzero now. rewrite Htok.
    apply AuthMiddleware_accepts with (sub := uuid_String userID); try done.
    apply Validate_exp_ahead with (e := exp_unix); auto.
  - intros now alg claims sig. done.
  - intros now alg claims sig Hav Hsig'.
    unfold AuthMiddleware, middleware.AuthMiddleware, jwt.Parse,
      middleware.keyFunc, jwt.Verify. simpl.
    by rewrite Hav, decide_False.
  - intros now alg claims sig Hav.
    unfold AuthMiddleware, middleware.AuthMiddleware, jwt.Parse,
      middleware.keyFunc, jwt.Verify. simpl.
    by rewrite Hav.
  - intros now alg Hav Hnow.
    apply AuthMiddleware_accepts with (sub := uuid_String userID); try done.
    apply Validate_exp_ahead with (e := exp_unix); auto.
Qed.

End Tokens.

Lemma token_round_trip_witness :
  exists tok,
    auth.generateJWT sample_hash_available sample_HMAC sample_uuid_String
      sample_secret 7 sample_phone (30 * time.Second) (30 * time.Second) = Ok tok
    /\ middleware.AuthMiddleware sample_hash_available sample_HMAC
         sample_uuid_Parse sample_secret (3600 * time.Second) tok
       = middleware.Next {| model.ID := 7;
                            model.PhoneNumber := sample_phone;
                            model.CreatedAt := time.zeroTime;
                            model.UpdatedAt := time.zeroTime |}
    /\ middleware.AuthMiddleware sample_hash_available sample_HMAC
         sample_uuid_Parse sample_secret (86430 * time.Second) tok
       = middleware.Abort
           (middleware.JSON 401
              "Invalid token: token has invalid claims: token is expired").
Proof.
  eexists. split; [vm_compute; reflexivity|].
  match goal with
  | |- ?f ?now1 ?tok = _ /\ _ =>
      destruct (token_round_trip
                  sample_hash_available sample_HMAC sample_uuid_String
                  sample_uuid_Parse sample_secret 7 sample_phone
                  (30 * time.Second) (30 * time.Second) tok)
        as (_ & Hacc & Hrej & _)
  end.
  - reflexivity.
  - vm_compute. reflexivity.
  - split.
    + apply Hacc. vm_compute. reflexivity.
    + apply Hrej; vm_compute; discriminate.
Defined.

(** The middleware does not compare the token's algorithm with the HS256
    that [generateJWT] signs with: a token whose header names HS384 and
    whose signature is the HS384 MAC under the secret, which is the HS256
    MAC of no signing string, is let through. *)
Lemma hs384_token_is_accepted :
  let claims : gmap string jwt.ClaimValue :=
    <["sub"%string := jwt.ClaimString (sample_uuid_String 7)]>
    (<["phone"%string := jwt.ClaimString sample_phone]>
    (<["iat"%string := jwt.ClaimNumber 30]>
    (<["exp"%string := jwt.ClaimNumber 86430]> ∅))) in
  let tok :=
    {| jwt.Header := jwt.SigningMethodHMAC jwt.HS384;
       jwt.Payload := claims;
       jwt.Signature :=
         sample_HMAC_by_alg jwt.HS384 sample_secret
           (jwt.SigningMethodHMAC jwt.HS384, claims) |} in
  jwt.Header tok <> jwt.SigningMethodHMAC jwt.HS256
  /\ (forall signing,
        jwt.Signature tok
        <> sample_HMAC_by_alg jwt.HS256 sample_secret signing)
  /\ middleware.AuthMiddleware sample_hash_available sample_HMAC_by_alg
       sample_uuid_Parse sample_secret (3600 * time.Second) tok
     = middleware.Next {| model.ID := 7;
                          model.PhoneNumber := sample_phone;
                          model.CreatedAt := time.zeroTime;
                          model.UpdatedAt := time.zeroTime |}.
Proof.
  intros claims tok. split; [discriminate|]. split.
  - intros signing. vm_compute. discriminate.
  - vm_compute. reflexivity.
Qed.

(** * Further properties of the code *)

(** ** The rate limiter over whole runs *)

Lemma Sub_self t : time.Sub t t = 0.
Proof.
  unfold time.Sub, time.minDuration, time.maxDuration. rewrite Z.sub_diag. lia.
Qed.

Lemma recent_ext r r' now ts :
  middleware.timeWindow r = middleware.timeWindow r' ->
  middleware.recent r now ts = middleware.recent r' now ts.
Proof. unfold middleware.recent. by intros ->. Qed.

Lemma recent_length_mono r tl now ts :
  tl <= now ->
  (length (middleware.recent r now ts) <= length (middleware.recent r tl ts))%nat.
Proof.
  intros Hle. rewrite <- (recent_recent r tl now ts Hle).
  apply length_filter.
Qed.

Lemma Allow_all_app r calls1 calls2 :
  Allow_all r (calls1 ++ calls2)
  = let out1 := Allow_all r calls1 in
    let out2 := Allow_all out1.2 calls2 in
    (out1.1 ++ out2.1, out2.2).
Proof.
  revert r. induction calls1 as [|[k t] calls1 IH]; intros r; simpl.
  - by destruct (Allow_all r calls2).
  - destruct (middleware.Allow r t k) as [ok r1]. rewrite IH. simpl.
    destruct (Allow_all r1 calls1) as [oks1 r2]. simpl.
    by destruct (Allow_all r2 calls2).
Qed.

Lemma Allow_all_snoc r calls k t :
  Allow_all r (calls ++ [(k, t)])
  = let out := Allow_all r calls in
    let step := middleware.Allow out.2 t k in
    (out.1 ++ [step.1], step.2).
Proof.
  rewrite Allow_all_app. cbv zeta. simpl.
  by destruct (middleware.Allow _ t k).
Qed.

Lemma accepted_snoc key calls answers k t ok :
  length answers = length calls ->
  accepted key (calls ++ [(k, t)]) (answers ++ [ok])
  = accepted key calls answers
    ++ (if decide (k = key /\ ok = true) then [t] else []).
Proof.
  revert answers. induction calls as [|[k' t'] calls IH]; intros [|a answers] Hlen;
    simpl in *; try done.
  injection Hlen as Hlen. rewrite IH by done.
  by destruct (decide (k' = key /\ a = true)).
Qed.

Section Runs.

Variable N : Z.
Variable W : Z.
Hypothesis W_nonneg : 0 <= W.

Let fresh := middleware.NewInMemoryRateLimiter N W.

(** After a run in time order, every key holds the admitted instants of
    that key that were recent at some earlier reading of the clock, and
    never more than [N] of them. *)
Lemma Allow_all_invariant calls :
  StronglySorted Z.le (calls.*2) ->
  let out := Allow_all fresh calls in
  length out.1 = length calls
  /\ middleware.maxReq out.2 = N
  /\ middleware.timeWindow out.2 = W
  /\ forall key,
       Z.of_nat (length (default [] (middleware.requests out.2 !! key)))
         <= Z.max 0 N
       /\ forall now, Forall (fun t => t <= now) (calls.*2) ->
            exists tl, tl <= now
              /\ default [] (middleware.requests out.2 !! key)
                 = middleware.recent fresh tl (accepted key calls out.1).
Proof.
  induction calls as [|[k t] calls IH] using rev_ind; intros Hsort out.
  - subst out. simpl. repeat split; try done.
    + rewrite lookup_empty. simpl. lia.
    + intros now _. exists now. by rewrite lookup_empty.
  - rewrite fmap_app in Hsort. simpl in Hsort.
    pose proof (StronglySorted_app_1_l _ _ _ Hsort) as Hsort'.
    assert (Hbefore : forall t' t'', t' ∈ calls.*2 -> t'' ∈ [t] -> t' <= t'')
      by (intros t' t''; by eapply StronglySorted_app_1_elem_of).
    specialize (IH Hsort'). cbv zeta in IH.
    destruct IH as (Hlen & HN & HW & Hkeys).
    subst out. rewrite Allow_all_snoc. cbv zeta.
    set (prev := Allow_all fresh calls) in *.
    pose proof (Allow_fst prev.2 k t) as Hfst.
    pose proof (Allow_snd_key prev.2 k t) as Hsnd.
    pose proof (Allow_config prev.2 k t) as [HN' HW'].
    cbv zeta in Hsnd. rewrite HN in Hfst, HN'. rewrite HW in HW'.
    assert (Hprev : Forall (fun t' => t' <= t) (calls.*2)).
    { apply Forall_forall. intros t' Ht'. apply (Hbefore t' t Ht').
      apply list_elem_of_singleton. done. }
    destruct (Hkeys k) as [Hbound Hhist]. destruct (Hhist t Hprev) as (tl & Htl & Hst).
    assert (Hsurv : middleware.recent prev.2 t
                      (default [] (middleware.requests prev.2 !! k))
                    = middleware.recent fresh t (accepted k calls prev.1)).
    { rewrite Hst. rewrite (recent_ext prev.2 fresh) by done.
      by apply recent_recent. }
    simpl. split; [rewrite !length_app; simpl; lia|].
    split; [done|]. split; [done|]. intros key.
    destruct (decide (k = key)) as [<-|Hne].
    + rewrite Hsnd. simpl default. rewrite accepted_snoc by done.
      destruct (middleware.Allow prev.2 t k).1 eqn:Hok.
      * symmetry in Hfst. apply bool_decide_eq_true_1 in Hfst.
        rewrite decide_True by done. split.
        -- rewrite length_app. simpl. lia.
        -- intros now Hnow. rewrite fmap_app in Hnow. exists t. split.
           ++ apply Forall_app in Hnow as [_ Hnow]. by apply Forall_inv in Hnow.
           ++ rewrite Hsurv. unfold middleware.recent. rewrite filter_app.
              f_equal. rewrite filter_cons_True; [done|].
              rewrite Sub_self. done.
      * rewrite decide_False by (intros [_ ?]; done). rewrite app_nil_r. split.
        -- etrans; [|exact Hbound]. apply inj_le.
           unfold middleware.recent. apply length_filter.
        -- intros now Hnow. rewrite fmap_app in Hnow. exists t. split; [|done].
           apply Forall_app in Hnow as [_ Hnow]. by apply Forall_inv in Hnow.
    + rewrite (Allow_snd_other prev.2 k t key Hne).
      rewrite accepted_snoc by done.
      rewrite decide_False by (intros [? _]; done). rewrite app_nil_r.
      destruct (Hkeys key) as [Hbound' Hhist']. split; [done|].
      intros now Hnow. rewrite fmap_app in Hnow. apply Hhist'. by apply Forall_app in Hnow as [Hnow _].
Qed.

(** X1. The sliding window holds: on a limiter created by
    [NewInMemoryRateLimiter N W] and called in time order, at the moment
    of any call the admitted calls of its key that lie within [W] of it
    (itself included when it is admitted) are at most [N]. *)
Theorem window_never_exceeds_max :
  forall calls key t,
    StronglySorted Z.le ((calls ++ [(key, t)]).*2) ->
    let out := Allow_all fresh (calls ++ [(key, t)]) in
    Z.of_nat (length (filter (fun u => time.Sub t u <= W)
                             (accepted key (calls ++ [(key, t)]) out.1)))
    <= Z.max 0 N.
Proof.
  intros calls key t Hsort out.
  pose proof (Allow_all_invariant _ Hsort) as (_ & _ & _ & Hkeys).
  destruct (Hkeys key) as [Hbound Hhist]. fold out in Hbound, Hhist.
  destruct (Hhist t) as (tl & Htl & Hst).
  { rewrite fmap_app in Hsort |- *. simpl in *.
    apply Forall_app. split; [|by constructor].
    apply Forall_forall. intros t' Ht'.
    eapply StronglySorted_app_1_elem_of; [exact Hsort|exact Ht'|].
    by apply list_elem_of_singleton. }
  change (filter (fun u => time.Sub t u <= W)
            (accepted key (calls ++ [(key, t)]) out.1))
    with (middleware.recent fresh t (accepted key (calls ++ [(key, t)]) out.1)).
  etrans; [|exact Hbound]. rewrite Hst. apply inj_le.
  by apply recent_length_mono.
Qed.

End Runs.

Lemma window_never_exceeds_max_witness :
  let calls := [(sample_phone, 0); (sample_phone, 10 * time.Second);
                ("+15550000000"%string, 15 * time.Second);
                (sample_phone, 20 * time.Second)] in
  let out := Allow_all (middleware.NewInMemoryRateLimiter 3 (2 * time.Minute))
                       (calls ++ [(sample_phone, 30 * time.Second)]) in
  out.1 = [true; true; true; true; false]
  /\ Z.of_nat (length (filter (fun u => time.Sub (30 * time.Second) u
                                        <= 2 * time.Minute)
                              (accepted sample_phone
                                 (calls ++ [(sample_phone, 30 * time.Second)])
                                 out.1)))
     <= Z.max 0 3.
Proof.
  intros calls out. split; [vm_compute; reflexivity|].
  apply (window_never_exceeds_max 3 (2 * time.Minute)).
  - vm_compute. discriminate.
  - repeat constructor; try (vm_compute; discriminate).
Defined.

(** ** The two limiters agree *)

Lemma database_Allow_all_snoc r calls k t :
  database_Allow_all r (calls ++ [(k, t)])
  = let out := database_Allow_all r calls in
    let step := database.Allow out.2 t k in
    (out.1 ++ [step.1], step.2).
Proof.
  revert r. induction calls as [|[k' t'] calls IH]; intros r; simpl.
  - by destruct (database.Allow r t k).
  - destruct (database.Allow r t' k') as [ok r1]. rewrite IH. simpl.
    destruct (database_Allow_all r1 calls) as [oks r2]. simpl.
    by destruct (database.Allow r2 t k).
Qed.

Lemma database_Allow_other l now key key' :
  key <> key' ->
  database.requests (database.Allow l now key).2 !! key'
  = database.requests l !! key'.
Proof.
  intros Hne. unfold database.Allow. cbv zeta.
  destruct (decide (Z.of_nat (length _) >= 3)); simpl; [done|].
  by rewrite lookup_insert_ne.
Qed.

(** X2. Called in time order from empty, the limiter of the database
    package and the middleware limiter configured with 3 requests per 10
    minutes give the same answers, although only the second writes the
    purged list back on rejection. *)
Theorem limiters_agree :
  forall calls,
    StronglySorted Z.le (calls.*2) ->
    (database_Allow_all database.NewInMemoryRateLimiter calls).1
    = (Allow_all (middleware.NewInMemoryRateLimiter 3 (10 * time.Minute)) calls).1.
Proof.
  set (fresh := middleware.NewInMemoryRateLimiter 3 (10 * time.Minute)).
  intros calls Hsort.
  cut (let d := database_Allow_all database.NewInMemoryRateLimiter calls in
       let m := Allow_all fresh calls in
       d.1 = m.1
       /\ middleware.maxReq m.2 = 3
       /\ middleware.timeWindow m.2 = 10 * time.Minute
       /\ forall now key, Forall (fun t => t <= now) (calls.*2) ->
            middleware.recent fresh now (default [] (database.requests d.2 !! key))
            = middleware.recent fresh now (default [] (middleware.requests m.2 !! key))).
  { intros H. apply H. }
  induction calls as [|[k t] calls IH] using rev_ind.
  - simpl. repeat split; done.
  - rewrite fmap_app in Hsort. simpl in Hsort.
    assert (Hbefore : forall t' t'', t' ∈ calls.*2 -> t'' ∈ [t] -> t' <= t'')
      by (intros t' t''; by eapply StronglySorted_app_1_elem_of).
    apply StronglySorted_app_1_l in Hsort. specialize (IH Hsort). cbv zeta in IH.
    destruct IH as (Hans & HN & HW & Hrec).
    rewrite database_Allow_all_snoc, Allow_all_snoc. cbv zeta.
    set (d := database_Allow_all database.NewInMemoryRateLimiter calls) in *.
    set (m := Allow_all fresh calls) in *.
    assert (Hprev : Forall (fun t' => t' <= t) (calls.*2)).
    { apply Forall_forall. intros t' Ht'. apply (Hbefore t' t Ht').
      by apply list_elem_of_singleton. }
    pose proof (database_Allow_rule d.2 t k) as [Hd1 Hd2].
    pose proof (Allow_fst m.2 k t) as Hm1.
    pose proof (Allow_snd_key m.2 k t) as Hm2.
    pose proof (Allow_config m.2 k t) as [HN' HW'].
    cbv zeta in Hm2. rewrite HN in Hm1, HN'. rewrite HW in HW'.
    rewrite (recent_ext m.2 fresh) in Hm1, Hm2 by done.
    change (filter (fun t0 => time.Sub t t0 <= 10 * time.Minute)
              (default [] (database.requests d.2 !! k)))
      with (middleware.recent fresh t (default [] (database.requests d.2 !! k)))
      in Hd1, Hd2.
    rewrite (Hrec t k Hprev) in Hd1, Hd2.
    assert (Hsame : (database.Allow d.2 t k).1 = (middleware.Allow m.2 t k).1)
      by (by rewrite Hd1, Hm1).
    simpl. split; [by rewrite Hans, Hsame|]. split; [done|]. split; [done|].
    intros now key Hnow. rewrite fmap_app in Hnow.
    apply Forall_app in Hnow as [Hnow Ht]. apply Forall_inv in Ht. simpl in Ht.
    destruct (decide (k = key)) as [<-|Hne].
    + rewrite Hd2, Hm2, Hsame. simpl default.
      destruct (middleware.Allow m.2 t k).1; [done|].
      rewrite (Hrec now k Hnow). symmetry. by apply recent_recent.
    + rewrite (Allow_snd_other m.2 k t key Hne).
      rewrite (database_Allow_other d.2 t k key Hne). by apply Hrec.
Qed.

Lemma limiters_agree_witness :
  let calls := [(sample_phone, 0); (sample_phone, 10 * time.Second);
                (sample_phone, 20 * time.Second); (sample_phone, 30 * time.Second);
                (sample_phone, 601 * time.Second)] in
  (database_Allow_all database.NewInMemoryRateLimiter calls).1
  = [true; true; true; false; true]
  /\ (database_Allow_all database.NewInMemoryRateLimiter calls).1
     = (Allow_all (middleware.NewInMemoryRateLimiter 3 (10 * time.Minute)) calls).1.
Proof.
  intros calls. split; [vm_compute; reflexivity|].
  apply limiters_agree. repeat constructor; try (vm_compute; discriminate).
Defined.

(** X3. Rate limiting is per key: a call for one key changes neither the
    answer given to a later call for another key nor the instants kept
    for it. *)
Theorem Allow_keys_independent :
  forall r key key' t t',
    key <> key' ->
    (middleware.Allow (middleware.Allow r t key).2 t' key').1
    = (middleware.Allow r t' key').1
    /\ middleware.requests
         (middleware.Allow (middleware.Allow r t key).2 t' key').2 !! key'
       = middleware.requests (middleware.Allow r t' key').2 !! key'.
Proof.
  intros r key key' t t' Hne.
  pose proof (Allow_config r key t) as [HN HW].
  assert (Hrec : middleware.recent (middleware.Allow r t key).2 t'
                   (default [] (middleware.requests (middleware.Allow r t key).2
                                !! key'))
                 = middleware.recent r t'
                     (default [] (middleware.requests r !! key'))).
  { rewrite (Allow_snd_other r key t key' Hne). by apply recent_ext. }
  assert (Hfst : (middleware.Allow (middleware.Allow r t key).2 t' key').1
                 = (middleware.Allow r t' key').1).
  { rewrite !Allow_fst, Hrec, HN. done. }
  split; [done|]. rewrite !Allow_snd_key. cbv zeta. by rewrite Hrec, Hfst.
Qed.

Lemma Allow_keys_independent_witness :
  let r := (Allow_all (middleware.NewInMemoryRateLimiter 1 (2 * time.Minute))
                      [(sample_phone, 0)]).2 in
  (middleware.Allow (middleware.Allow r 1 sample_phone).2 2 "+15550000000").1
  = (middleware.Allow r 2 "+15550000000").1.
Proof.
  intros r.
  apply (Allow_keys_independent r sample_phone "+15550000000" 1 2).
  discriminate.
Defined.

Lemma cleanup_preserves_admission_witness :
  let r := (Allow_all (middleware.NewInMemoryRateLimiter 3 (2 * time.Minute))
                      [(sample_phone, 0); (sample_phone, 100 * time.Second)]).2 in
  (middleware.Allow (middleware.cleanup r (130 * time.Second))
                    (140 * time.Second) sample_phone).1
  = (middleware.Allow r (140 * time.Second) sample_phone).1.
Proof.
  intros r.
  apply (cleanup_preserves_admission r (130 * time.Second) (140 * time.Second)
           sample_phone).
  vm_compute. discriminate.
Defined.

(** ** The in-memory stores *)

(** X4. [CreateUser] succeeds exactly on a phone number that is not
    indexed. On success the user gets the new id and both lookups find it;
    on a taken phone number the error wraps [ErrAlreadyExists] and the
    store is unchanged. *)
Theorem CreateUser_lookup :
  forall s user id t1 t2,
    let out := database.CreateUser s user id t1 t2 in
    (database.phoneIndex s !! model.PhoneNumber user = None ->
       exists u, out.1 = Ok u
         /\ model.ID u = id
         /\ model.PhoneNumber u = model.PhoneNumber user
         /\ model.CreatedAt u = t1 /\ model.UpdatedAt u = t2
         /\ database.GetUserByPhoneNumber out.2 (model.PhoneNumber user) = Ok u
         /\ database.GetUserByID out.2 id = Ok u)
    /\ (is_Some (database.phoneIndex s !! model.PhoneNumber user) ->
        (exists e, out.1 = Err e /\ errors_Is e ErrAlreadyExists = true)
        /\ out.2 = s).
Proof.
  intros s user id t1 t2 out. subst out. unfold database.CreateUser. split.
  - intros ->. eexists. split; [reflexivity|]. simpl.
    unfold database.GetUserByPhoneNumber, database.GetUserByID. simpl.
    by rewrite !lookup_insert_eq.
  - intros [id' ->]. simpl. split; [|done]. eexists. split; reflexivity.
Qed.

Lemma CreateUser_lookup_witness :
  exists u,
    (database.CreateUser database.NewInMemoryUserStore
       (model.mkUser 0 sample_phone time.zeroTime time.zeroTime) 9 5 6).1 = Ok u
    /\ model.ID u = 9.
Proof.
  destruct (proj1 (CreateUser_lookup database.NewInMemoryUserStore
              (model.mkUser 0 sample_phone time.zeroTime time.zeroTime) 9 5 6))
    as (u & Hu & Hid & _).
  - reflexivity.
  - exists u. by split.
Defined.

Lemma NewInMemoryUserStore_ok : user_store_ok database.NewInMemoryUserStore.
Proof. intros phone id Hidx. simpl in Hidx. by rewrite lookup_empty in Hidx. Qed.

Lemma CreateUser_ok s user id t1 t2 :
  user_store_ok s ->
  database.users s !! id = None ->
  user_store_ok (database.CreateUser s user id t1 t2).2.
Proof.
  intros Hok Hfresh. unfold database.CreateUser.
  destruct (database.phoneIndex s !! model.PhoneNumber user) eqn:Hidx; [done|].
  intros phone id' Hl. simpl in *.
  destruct (decide (model.PhoneNumber user = phone)) as [<-|Hne].
  - rewrite lookup_insert_eq in Hl. injection Hl as <-.
    rewrite lookup_insert_eq. by eexists.
  - rewrite lookup_insert_ne in Hl by done.
    destruct (Hok phone id' Hl) as (u & Hu & Hp & Hi).
    exists u. split; [|done]. rewrite lookup_insert_ne; [done|].
    intros <-. by rewrite Hfresh in Hu.
Qed.

(** X5. Consistency of the user store. The empty store is consistent, and
    [CreateUser] with an id not yet in use keeps it consistent and leaves
    the lookups of every other phone number as they were. In a consistent
    store a lookup by phone number returns a user with that phone number
    or, exactly when the number is not indexed, an error wrapping
    [ErrNotFound]. *)
Theorem user_store_consistent :
  user_store_ok database.NewInMemoryUserStore
  /\ (forall s user id t1 t2,
        user_store_ok s ->
        database.users s !! id = None ->
        let s' := (database.CreateUser s user id t1 t2).2 in
        user_store_ok s'
        /\ forall phone, phone <> model.PhoneNumber user ->
             database.GetUserByPhoneNumber s' phone
             = database.GetUserByPhoneNumber s phone)
  /\ (forall s phone,
        user_store_ok s ->
        match database.GetUserByPhoneNumber s phone with
        | Ok u => model.PhoneNumber u = phone
                  /\ database.phoneIndex s !! phone = Some (model.ID u)
        | Err e => errors_Is e ErrNotFound = true
                   /\ database.phoneIndex s !! phone = None
        end).
Proof.
  split; [exact NewInMemoryUserStore_ok|]. split.
  - intros s user id t1 t2 Hok Hfresh s'. split; [by apply CreateUser_ok|].
    intros phone Hne. subst s'. unfold database.CreateUser.
    destruct (database.phoneIndex s !! model.PhoneNumber user) eqn:Hidx; [done|].
    unfold database.GetUserByPhoneNumber. simpl.
    rewrite lookup_insert_ne by done.
    destruct (database.phoneIndex s !! phone) as [id'|] eqn:Hp; [|done].
    destruct (Hok phone id' Hp) as (u & Hu & _).
    rewrite lookup_insert_ne; [done|]. intros <-. by rewrite Hfresh in Hu.
  - intros s phone Hok. unfold database.GetUserByPhoneNumber.
    destruct (database.phoneIndex s !! phone) as [id|] eqn:Hp; [|done].
    destruct (Hok phone id Hp) as (u & -> & Hphone & Hid). by subst.
Qed.

Lemma user_store_consistent_witness :
  user_store_ok
    (database.CreateUser database.NewInMemoryUserStore
       (model.mkUser 0 sample_phone time.zeroTime time.zeroTime) 9 5 6).2.
Proof.
  apply (proj1 (proj2 user_store_consistent)).
  - apply (proj1 user_store_consistent).
  - reflexivity.
Defined.

(** X6. The OTP store holds one code per phone number. After [StoreOTP]
    the lookup returns the stored code and expiry with the new id and
    creation time, whatever was stored before, and other phone numbers are
    untouched. After [DeleteOTP] the lookup fails with an error wrapping
    [ErrNotFound]; deleting again, or deleting a missing code, changes
    nothing and reports no error. *)
Theorem OTP_store_one_per_phone :
  forall s otp id now,
    let s1 := (database.StoreOTP s otp id now).2 in
    let phone := model.OTP_PhoneNumber otp in
    (database.StoreOTP s otp id now).1 = None
    /\ database.GetOTP s1 phone
       = Ok (model.mkOTP id phone (model.OTPCode otp) now (model.ExpiresAt otp))
    /\ (forall phone', phone' <> phone ->
          database.GetOTP s1 phone' = database.GetOTP s phone'
          /\ database.GetOTP (database.DeleteOTP s phone).2 phone'
             = database.GetOTP s phone')
    /\ (exists e, database.GetOTP (database.DeleteOTP s1 phone).2 phone = Err e
                  /\ errors_Is e ErrNotFound = true)
    /\ (database.DeleteOTP s phone).1 = None
    /\ (database.DeleteOTP (database.DeleteOTP s phone).2 phone).2
       = (database.DeleteOTP s phone).2.
Proof.
  intros s otp id now s1 phone. subst s1 phone.
  unfold database.GetOTP, database.StoreOTP, database.DeleteOTP. simpl.
  split; [done|]. split; [by rewrite lookup_insert_eq|]. split.
  - intros phone' Hne. by rewrite lookup_insert_ne, lookup_delete_ne.
  - split.
    + rewrite lookup_delete_eq. eexists. split; reflexivity.
    + split; [done|]. f_equal. apply map_eq. intros k.
      destruct (decide (model.OTP_PhoneNumber otp = k)) as [<-|Hne].
      * by rewrite !lookup_delete_eq.
      * by rewrite !lookup_delete_ne.
Qed.

Lemma OTP_store_one_per_phone_witness :
  let s1 := (database.StoreOTP database.NewInMemoryOTPStore
               (model.mkOTP 0 sample_phone "482913" 0 120) 7 1).2 in
  database.GetOTP s1 "+15550000000"
  = database.GetOTP database.NewInMemoryOTPStore "+15550000000".
Proof.
  intros s1.
  refine (proj1 (proj1 (proj2 (proj2 (OTP_store_one_per_phone
            database.NewInMemoryOTPStore
            (model.mkOTP 0 sample_phone "482913" 0 120) 7 1)))
            "+15550000000" _)).
  discriminate.
Defined.

(** ** Listing users *)

Lemma wrap_int_small x : - 2 ^ 63 <= x < 2 ^ 63 -> database.wrap_int x = x.
Proof.
  intros Hx. unfold database.wrap_int. rewrite Z.mod_small; lia.
Qed.

Lemma ListUsers_eq visited limit offset search :
  0 <= offset -> 0 <= limit -> offset + limit < 2 ^ 63 ->
  let matching :=
    filter (fun user : model.User =>
              search = ""%string \/ model.PhoneNumber user = search) visited in
  database.ListUsers visited limit offset search
  = Some (take (Z.to_nat limit) (drop (Z.to_nat offset) matching),
          Z.of_nat (length matching)).
Proof.
  intros Hoff Hlim Hsum matching.
  unfold database.ListUsers. fold matching.
  set (total := Z.of_nat (length matching)).
  rewrite (wrap_int_small (offset + limit)) by lia.
  destruct (decide (offset >= total)) as [Hge|Hlt].
  - f_equal. f_equal. symmetry. apply length_zero_iff_nil.
    rewrite length_take, length_drop. lia.
  - destruct (decide (offset + limit > total)) as [Hend|Hend].
    + rewrite decide_True by lia. f_equal. f_equal.
      rewrite !take_ge; [done| |]; rewrite length_drop; subst total; lia.
    + rewrite decide_True by lia. f_equal. f_equal. f_equal. lia.
Qed.

(** X7. [ListUsers] with a non-negative offset and limit whose sum fits an
    int returns the users that match the search, in the order visited,
    from position [offset] on and at most [limit] of them, together with
    the number of all matching users; the page holds
    [min limit (total - offset)] users when [offset] is below the total and
    none otherwise. The order visited is that of one walk over the map and
    may differ from call to call: a call that visits the same users in
    another order gives the same total and a page of the same size, whose
    users need not be the same. With an empty search the total is the
    size of the user map. *)
Theorem ListUsers_page :
  forall visited limit offset search,
    0 <= offset -> 0 <= limit -> offset + limit < 2 ^ 63 ->
    let matching :=
      filter (fun user : model.User =>
                search = ""%string \/ model.PhoneNumber user = search) visited in
    let total := Z.of_nat (length matching) in
    let page := take (Z.to_nat limit) (drop (Z.to_nat offset) matching) in
    database.ListUsers visited limit offset search = Some (page, total)
    /\ Z.of_nat (length page) = Z.min limit (Z.max 0 (total - offset))
    /\ (forall u, u ∈ page ->
          u ∈ visited /\ (search = ""%string \/ model.PhoneNumber u = search))
    /\ (forall visited', visited ≡ₚ visited' ->
          exists page',
            database.ListUsers visited' limit offset search = Some (page', total)
            /\ length page' = length page)
    /\ (forall s : database.InMemoryUserStore,
          visited ≡ₚ (map_to_list (database.users s)).*2 ->
          search = ""%string ->
          total = Z.of_nat (size (database.users s))).
Proof.
  intros visited limit offset search Hoff Hlim Hsum matching total page.
  assert (Hlen : Z.of_nat (length page) = Z.min limit (Z.max 0 (total - offset))).
  { subst page total. rewrite length_take, length_drop. lia. }
  split; [|split; [done|split; [|split]]].
  - by apply ListUsers_eq.
  - intros u Hu. subst page.
    apply subseteq_take, subseteq_drop in Hu.
    apply list_elem_of_filter in Hu. tauto.
  - intros visited' Hperm.
    assert (Hmatch : length (filter (fun user : model.User =>
                                       search = ""%string
                                       \/ model.PhoneNumber user = search)
                               visited')
                     = length matching).
    { subst matching. by rewrite Hperm. }
    eexists. split.
    + rewrite (ListUsers_eq visited' limit offset search) by done.
      subst total. by rewrite Hmatch.
    + subst page. rewrite !length_take, !length_drop. by rewrite Hmatch.
  - intros s Hperm ->. subst total matching.
    assert (Hall : filter (fun user : model.User =>
                             ""%string = ""%string
                             \/ model.PhoneNumber user = ""%string) visited
                   = visited).
    { clear. induction visited as [|u l IH]; [done|].
      rewrite filter_cons_True by (by left). by rewrite IH. }
    by rewrite Hall, Hperm, length_fmap, length_map_to_list.
Qed.

Lemma ListUsers_page_witness :
  database.ListUsers sample_users 2 2 ""
  = Some ([model.mkUser 3 "+15550000003" 30 30], 3).
Proof.
  apply (proj1 (ListUsers_page sample_users 2 2 "" ltac:(lia) ltac:(lia)
                  ltac:(lia))).
Defined.

(** X8. The list handler. A page or limit that is not a number or not
    positive is answered 400. Otherwise, when [page * limit] fits an int,
    the answer is 200 with the users of that page, at most [limit] of
    them, and the total. When the offset [(page - 1) * limit] wraps
    around to a negative int, the slice expression of the store panics. *)
Theorem Handler_ListUsers_answers :
  forall visited page limit search,
    (forall e, user.Handler_ListUsers visited (Err e) limit search
               = user.ListBadRequest "Invalid page number")
    /\ (page <= 0 ->
        user.Handler_ListUsers visited (Ok page) limit search
        = user.ListBadRequest "Invalid page number")
    /\ (forall n, 0 < page -> n <= 0 ->
          (forall e, user.Handler_ListUsers visited (Ok page) (Err e) search
                     = user.ListBadRequest "Invalid limit per page")
          /\ user.Handler_ListUsers visited (Ok page) (Ok n) search
             = user.ListBadRequest "Invalid limit per page")
    /\ (forall n, 0 < page -> 0 < n -> page * n < 2 ^ 63 ->
          let matching :=
            filter (fun u : model.User =>
                      search = ""%string \/ model.PhoneNumber u = search)
                   visited in
          let data := model.ToUserResponse
                        <$> take (Z.to_nat n)
                                 (drop (Z.to_nat ((page - 1) * n)) matching) in
          user.Handler_ListUsers visited (Ok page) (Ok n) search
          = user.ListOK data (Z.of_nat (length matching)) page n
          /\ Z.of_nat (length data) <= n)
    /\ (forall n, 0 < page < 2 ^ 63 -> 0 < n ->
          database.wrap_int ((page - 1) * n) < 0 ->
          user.Handler_ListUsers visited (Ok page) (Ok n) search
          = user.ListPanic).
Proof.
  intros visited page limit search.
  split; [done|]. split.
  { intros Hp. unfold user.Handler_ListUsers. by rewrite decide_True by lia. }
  split.
  { intros n Hp Hn. unfold user.Handler_ListUsers. split.
    - intros e. by rewrite decide_False by lia.
    - rewrite decide_False by lia. by rewrite decide_True by lia. }
  split.
  - intros n Hp Hn Hfit matching data.
    unfold user.Handler_ListUsers, user.ListUsers.
    rewrite !decide_False by lia.
    rewrite (wrap_int_small (page - 1)) by lia.
    rewrite (wrap_int_small ((page - 1) * n)) by nia.
    rewrite (ListUsers_eq visited n ((page - 1) * n) search) by nia.
    split; [done|]. subst data. rewrite length_fmap, length_take. lia.
  - intros n Hp Hn Hneg.
    unfold user.Handler_ListUsers, user.ListUsers, database.ListUsers.
    rewrite !decide_False by lia.
    rewrite (wrap_int_small (page - 1)) by lia.
    rewrite decide_False by lia. rewrite decide_False by lia. done.
Qed.

Lemma Handler_ListUsers_answers_witness :
  user.Handler_ListUsers sample_users (Ok 2) (Ok 2) ""
  = user.ListOK [model.mkUserResponse 3 "+15550000003" 30] 3 2 2
  /\ user.Handler_ListUsers sample_users (Ok 4611686018427387905) (Ok 6) ""
     = user.ListPanic.
Proof.
  destruct (Handler_ListUsers_answers sample_users 2 (Ok 2) "")
    as (_ & _ & _ & Hok & _).
  destruct (Handler_ListUsers_answers sample_users 4611686018427387905 (Ok 6) "")
    as (_ & _ & _ & _ & Hpanic).
  split.
  - apply (Hok 2); lia.
  - apply (Hpanic 6); [lia|lia|vm_compute; reflexivity].
Defined.

(** ** The service on the in-memory stores *)

Lemma SendOTP_cases r env phone :
  let out := auth.SendOTP r env phone in
  auth.userStore out.2 = auth.userStore r
  /\ ((out.1 = Some ErrRateLimitExceeded /\ auth.otpStore out.2 = auth.otpStore r)
      \/ (out.1 = None
          /\ database.otps (auth.otpStore out.2)
             = <[phone := model.mkOTP (auth.otp_id env) phone
                            (otp.GenerateOTP (auth.rand_read env))
                            (auth.store_now env)
                            (time.Add (auth.expiry_now env) (2 * time.Minute))]>
               (database.otps (auth.otpStore r)))).
Proof.
  unfold auth.SendOTP, auth.AllowOTPRate. cbv zeta.
  destruct (middleware.Allow _ _ _) as [[] l']; simpl; split; auto.
Qed.

Section Service.

Variable hash_available : jwt.HMACAlg -> bool.
Variable HMAC : jwt.HMACAlg -> string -> jwt.SigningString -> string.
Variable uuid_String : Z -> string.
Variable jwtSecret : string.

Let Verify := auth.VerifyOTPAndAuthenticate hash_available HMAC uuid_String jwtSecret.
Let generateJWT := auth.generateJWT hash_available HMAC uuid_String jwtSecret.

(** The user a passed check resolves to, and the user store it leaves:
    the indexed user of a consistent store, or a new one. *)
Lemma Verify_resolves r env phone code :
  otp_check_passes r (auth.expired_now env) phone code ->
  user_store_ok (auth.userStore r) ->
  exists u,
    model.PhoneNumber u = phone
    /\ (Verify r env phone code).1
       = match generateJWT (model.ID u) phone (auth.iat_now env) (auth.exp_now env) with
         | Ok tok => Ok tok
         | Err _ => Err ErrJWTGeneration
         end
    /\ database.GetUserByPhoneNumber (auth.userStore (Verify r env phone code).2)
         phone = Ok u
    /\ match database.phoneIndex (auth.userStore r) !! phone with
       | Some id => model.ID u = id
                    /\ auth.userStore (Verify r env phone code).2 = auth.userStore r
       | None => u = model.mkUser (auth.user_id env) phone
                       (auth.created_now env) (auth.updated_now env)
                 /\ auth.userStore (Verify r env phone code).2
                    = (database.CreateUser (auth.userStore r)
                         (model.mkUser 0 phone time.zeroTime time.zeroTime)
                         (auth.user_id env) (auth.created_now env)
                         (auth.updated_now env)).2
       end.
Proof.
  intros (stored & Hget & Hcode & Hexp) Hok.
  unfold Verify, auth.VerifyOTPAndAuthenticate. rewrite Hget.
  apply String.eqb_eq in Hcode. rewrite Hcode, Hexp. simpl.
  unfold auth.GetUserByPhoneNumber, auth.CreateUser,
    database.GetUserByPhoneNumber, database.CreateUser. simpl.
  destruct (database.phoneIndex (auth.userStore r) !! phone) as [id|] eqn:Hidx;
    simpl.
  - destruct (Hok phone id Hidx) as (u & Hu & Hphone & Hid).
    rewrite Hu. simpl. exists u. split; [done|]. rewrite Hphone.
    fold generateJWT.
    destruct (generateJWT _ _ _ _) as [tok|e]; simpl;
      rewrite Hidx, Hu; done.
  - exists (model.mkUser (auth.user_id env) phone
              (auth.created_now env) (auth.updated_now env)).
    split; [reflexivity|]. simpl. fold generateJWT.
    destruct (generateJWT _ _ _ _) as [tok|e]; simpl;
      rewrite !lookup_insert_eq; done.
Qed.

(** X9. An admitted [SendOTP] stores for the phone number the code it
    generated, expiring two minutes after its reading of the clock, and
    replaces any earlier code: afterwards a verification with any other
    code fails. A refused [SendOTP] leaves the stored codes as they were.
    Neither touches the user store or the codes of other phone numbers. *)
Theorem SendOTP_stores_generated_code :
  forall r env phone,
    let out := auth.SendOTP r env phone in
    auth.userStore out.2 = auth.userStore r
    /\ (forall phone', phone' <> phone ->
          auth.GetOTP out.2 phone' = auth.GetOTP r phone')
    /\ (out.1 = None ->
          auth.GetOTP out.2 phone
          = Ok (model.mkOTP (auth.otp_id env) phone
                  (otp.GenerateOTP (auth.rand_read env)) (auth.store_now env)
                  (auth.expiry_now env + 120 * time.Second))
          /\ forall env' code,
               code <> otp.GenerateOTP (auth.rand_read env) ->
               Verify out.2 env' phone code = (Err ErrInvalidOTP, out.2))
    /\ (out.1 <> None ->
          out.1 = Some ErrRateLimitExceeded
          /\ auth.otpStore out.2 = auth.otpStore r).
Proof.
  intros r env phone out.
  destruct (SendOTP_cases r env phone) as [Hus Hcases]. fold out in Hus, Hcases.
  split; [done|]. split; [|split].
  - intros phone' Hne. unfold auth.GetOTP, database.GetOTP.
    destruct Hcases as [[_ ->]|[_ ->]]; [done|].
    by rewrite lookup_insert_ne.
  - intros Hnone. destruct Hcases as [[Hrej _]|[_ Hst]].
    { rewrite Hnone in Hrej. done. }
    assert (Hget : auth.GetOTP out.2 phone
              = Ok (model.mkOTP (auth.otp_id env) phone
                      (otp.GenerateOTP (auth.rand_read env)) (auth.store_now env)
                      (auth.expiry_now env + 120 * time.Second))).
    { unfold auth.GetOTP, database.GetOTP. rewrite Hst, lookup_insert_eq. done. }
    split; [done|]. intros env' code Hne.
    apply Verify_check_fails.
    intros (stored & Hget' & Hcode & _). rewrite Hget in Hget'.
    injection Hget' as <-. simpl in Hcode. congruence.
  - intros Hsome. destruct Hcases as [[Hrej Hst]|[Hnone _]]; [done|].
    by rewrite Hnone in Hsome.
Qed.

(** X10. A code that was issued authenticates. After an admitted
    [SendOTP], a verification with the generated code whose clock reading
    is not after the expiry, on a consistent user store and with the HS256
    hash available, returns a token; the token carries the phone number
    and the id of the user that the store then holds for it. *)
Theorem issued_code_authenticates :
  forall r envS envV phone,
    let sent := auth.SendOTP r envS phone in
    let code := otp.GenerateOTP (auth.rand_read envS) in
    sent.1 = None ->
    auth.expired_now envV <= auth.expiry_now envS + 120 * time.Second ->
    hash_available jwt.HS256 = true ->
    user_store_ok (auth.userStore r) ->
    exists tok u,
      (Verify sent.2 envV phone code).1 = Ok tok
      /\ jwt.Payload tok !! "phone"%string = Some (jwt.ClaimString phone)
      /\ jwt.Payload tok !! "sub"%string
         = Some (jwt.ClaimString (uuid_String (model.ID u)))
      /\ auth.GetUserByPhoneNumber (Verify sent.2 envV phone code).2 phone = Ok u.
Proof.
  intros r envS envV phone sent code Hsent Htime Hhash Hok.
  destruct (SendOTP_cases r envS phone) as [Hus Hcases].
  fold sent in Hus, Hcases.
  destruct Hcases as [[Hrej _]|[_ Hst]]; [by rewrite Hsent in Hrej|].
  assert (Hget : auth.GetOTP sent.2 phone
            = Ok (model.mkOTP (auth.otp_id envS) phone code (auth.store_now envS)
                    (auth.expiry_now envS + 120 * time.Second))).
  { unfold auth.GetOTP, database.GetOTP. rewrite Hst, lookup_insert_eq. done. }
  assert (Hpass : otp_check_passes sent.2 (auth.expired_now envV) phone code).
  { eexists. split; [exact Hget|]. split; [done|].
    unfold model.IsExpired, time.After. simpl. apply Z.ltb_ge. lia. }
  destruct (Verify_resolves sent.2 envV phone code Hpass) as (u & Hphone & Hres & Hlook & _).
  { by rewrite Hus. }
  unfold generateJWT in Hres.
  destruct (auth.generateJWT _ _ _ _ _ _ _ _) as [tok|e] eqn:Hgen.
  - exists tok, u. split; [done|].
    apply generateJWT_ok in Hgen as (_ & _ & _ & Hsub & Hph & _).
    split; [done|]. split; [done|].
    unfold auth.GetUserByPhoneNumber. fold Verify. by rewrite Hlook.
  - exfalso. unfold auth.generateJWT, jwt.SignedString, jwt.Sign in Hgen.
    by rewrite Hhash in Hgen.
Qed.

(** X11. Guessing is free. A verification answered [ErrInvalidOTP] changes
    no store; after a verification with a code other than the stored one,
    a verification gives what it would have given without it. *)
Theorem failed_verification_changes_nothing :
  forall r env phone code,
    ((Verify r env phone code).1 = Err ErrInvalidOTP ->
       (Verify r env phone code).2 = r)
    /\ (forall stored env' code',
          auth.GetOTP r phone = Ok stored ->
          model.OTPCode stored <> code ->
          Verify (Verify r env phone code).2 env' phone code'
          = Verify r env' phone code').
Proof.
  intros r env phone code. split.
  - intros Herr.
    destruct (auth.GetOTP r phone) as [stored|e] eqn:Hget.
    + destruct (decide (model.OTPCode stored = code)) as [Hc|Hc].
      * destruct (model.IsExpired (auth.expired_now env) stored) eqn:Hexp.
        -- unfold Verify. rewrite Verify_check_fails; [done|].
           intros (stored' & Hget' & _ & Hexp'). congruence.
        -- exfalso.
           assert (Hpass : otp_check_passes r (auth.expired_now env) phone code)
             by (by exists stored).
           by destruct (Verify_check_passes hash_available HMAC uuid_String
                          jwtSecret r env phone code Hpass) as [_ Hne].
      * unfold Verify. rewrite Verify_check_fails; [done|].
        intros (stored' & Hget' & Hcode' & _). congruence.
    + unfold Verify. rewrite Verify_check_fails; [done|].
      intros (stored' & Hget' & _). congruence.
  - intros stored env' code' Hget Hne.
    unfold Verify at 2. rewrite Verify_check_fails; [done|].
    intros (stored' & Hget' & Hcode' & _). congruence.
Qed.

(** X12. What a verification leaves alone: the rate limiter, and the
    stored codes of every other phone number. A passed check changes the
    OTP store only by deleting the code of its phone number. *)
Theorem Verify_frame :
  forall r env phone code,
    auth.rateLimiter (Verify r env phone code).2 = auth.rateLimiter r
    /\ (forall phone', phone' <> phone ->
          auth.GetOTP (Verify r env phone code).2 phone' = auth.GetOTP r phone')
    /\ (database.otps (auth.otpStore (Verify r env phone code).2)
        = database.otps (auth.otpStore r)
        \/ database.otps (auth.otpStore (Verify r env phone code).2)
           = delete phone (database.otps (auth.otpStore r))).
Proof.
  intros r env phone code.
  assert (H : auth.rateLimiter (Verify r env phone code).2 = auth.rateLimiter r
              /\ (database.otps (auth.otpStore (Verify r env phone code).2)
                  = database.otps (auth.otpStore r)
                  \/ database.otps (auth.otpStore (Verify r env phone code).2)
                     = delete phone (database.otps (auth.otpStore r)))).
  { unfold Verify, auth.VerifyOTPAndAuthenticate.
    destruct (auth.GetOTP r phone) as [stored|e]; [|by split; [|left]].
    destruct (negb _ || _); [by split; [|left]|]. simpl.
    unfold auth.GetUserByPhoneNumber, auth.CreateUser,
      database.GetUserByPhoneNumber, database.CreateUser. simpl.
    destruct (database.phoneIndex (auth.userStore r) !! phone) as [id|]; simpl.
    - destruct (database.users (auth.userStore r) !! id) as [u|]; simpl.
      + destruct (auth.generateJWT _ _ _ _ _ _ _ _); simpl; split; auto.
      + split; auto.
    - destruct (auth.generateJWT _ _ _ _ _ _ _ _); simpl; split; auto. }
  destruct H as [Hrl Hotp]. split; [done|]. split; [|done].
  intros phone' Hne. unfold auth.GetOTP, database.GetOTP.
  destruct Hotp as [-> | ->]; [done|]. by rewrite lookup_delete_ne.
Qed.

(** X13. Find or create. On a consistent user store a passed check for a
    phone number that is indexed leaves the user store unchanged and
    resolves to the indexed user; for a phone number that is not indexed
    it creates one user, with the id drawn for it, and after it the phone
    number is found. With an id not in use the store stays consistent. *)
Theorem Verify_finds_or_creates :
  forall r env phone code,
    otp_check_passes r (auth.expired_now env) phone code ->
    user_store_ok (auth.userStore r) ->
    let r' := (Verify r env phone code).2 in
    (forall id, database.phoneIndex (auth.userStore r) !! phone = Some id ->
       auth.userStore r' = auth.userStore r
       /\ exists u, database.GetUserByPhoneNumber (auth.userStore r') phone = Ok u
                    /\ model.ID u = id)
    /\ (database.phoneIndex (auth.userStore r) !! phone = None ->
        database.GetUserByPhoneNumber (auth.userStore r') phone
        = Ok (model.mkUser (auth.user_id env) phone
                (auth.created_now env) (auth.updated_now env)))
    /\ (database.users (auth.userStore r) !! auth.user_id env = None ->
        user_store_ok (auth.userStore r')).
Proof.
  intros r env phone code Hpass Hok r'.
  destruct (Verify_resolves r env phone code Hpass Hok)
    as (u & Hphone & _ & Hlook & Hstore).
  fold r' in Hlook, Hstore. split; [|split].
  - intros id Hidx. rewrite Hidx in Hstore. destruct Hstore as [Hid Hsame].
    split; [done|]. by exists u.
  - intros Hidx. rewrite Hidx in Hstore. destruct Hstore as [-> _]. done.
  - intros Hfresh.
    destruct (database.phoneIndex (auth.userStore r) !! phone) as [id|].
    + destruct Hstore as [_ ->]. done.
    + destruct Hstore as [_ ->]. by apply CreateUser_ok.
Qed.

End Service.

Lemma SendOTP_stores_generated_code_witness :
  auth.GetOTP (auth.SendOTP main.authRepo (sample_send 0) sample_phone).2
              sample_phone
  = Ok (model.mkOTP 7 sample_phone "482913" 0 (120 * time.Second))
  /\ sample_Verify (auth.SendOTP main.authRepo (sample_send 0) sample_phone).2
                   (sample_verify 30 1) sample_phone "000000"
     = (Err ErrInvalidOTP,
        (auth.SendOTP main.authRepo (sample_send 0) sample_phone).2).
Proof.
  destruct (SendOTP_stores_generated_code
              sample_hash_available sample_HMAC sample_uuid_String sample_secret
              main.authRepo (sample_send 0) sample_phone) as (_ & _ & H & _).
  destruct H as [Hget Hother]; [reflexivity|].
  split; [exact Hget|]. apply Hother. discriminate.
Defined.

Lemma issued_code_authenticates_witness :
  exists tok u,
    (sample_Verify sample_after_send (sample_verify 30 1) sample_phone "482913").1
    = Ok tok
    /\ jwt.Payload tok !! "phone"%string = Some (jwt.ClaimString sample_phone)
    /\ jwt.Payload tok !! "sub"%string
       = Some (jwt.ClaimString (sample_uuid_String (model.ID u)))
    /\ auth.GetUserByPhoneNumber
         (sample_Verify sample_after_send (sample_verify 30 1)
                        sample_phone "482913").2 sample_phone = Ok u.
Proof.
  apply (issued_code_authenticates
           sample_hash_available sample_HMAC sample_uuid_String sample_secret
           main.authRepo (sample_send 0) (sample_verify 30 1) sample_phone).
  - reflexivity.
  - vm_compute. discriminate.
  - reflexivity.
  - exact NewInMemoryUserStore_ok.
Defined.

Lemma failed_verification_changes_nothing_witness :
  sample_Verify
    (sample_Verify sample_after_send (sample_verify 10 1) sample_phone "000000").2
    (sample_verify 30 1) sample_phone "482913"
  = sample_Verify sample_after_send (sample_verify 30 1) sample_phone "482913".
Proof.
  refine (proj2 (failed_verification_changes_nothing
            sample_hash_available sample_HMAC sample_uuid_String sample_secret
            sample_after_send (sample_verify 10 1) sample_phone "000000")
            (model.mkOTP 7 sample_phone "482913" 0 (120 * time.Second))
            (sample_verify 30 1) "482913" _ _).
  - vm_compute. reflexivity.
  - discriminate.
Defined.

Lemma Verify_frame_witness :
  auth.GetOTP
    (sample_Verify sample_after_send (sample_verify 30 1) "+15550000000" "482913").2
    sample_phone
  = auth.GetOTP sample_after_send sample_phone.
Proof.
  refine (proj1 (proj2 (Verify_frame
            sample_hash_available sample_HMAC sample_uuid_String sample_secret
            sample_after_send (sample_verify 30 1) "+15550000000" "482913"))
            sample_phone _).
  discriminate.
Defined.

Lemma Verify_finds_or_creates_witness :
  database.GetUserByPhoneNumber
    (auth.userStore
       (sample_Verify sample_after_send (sample_verify 30 1)
                      sample_phone "482913").2) sample_phone
  = Ok (model.mkUser 1 sample_phone (30 * time.Second) (30 * time.Second)).
Proof.
  refine (proj1 (proj2 (Verify_finds_or_creates
            sample_hash_available sample_HMAC sample_uuid_String sample_secret
            sample_after_send (sample_verify 30 1) sample_phone "482913" _ _)) _).
  - eexists. split; [vm_compute; reflexivity|]. split; vm_compute; reflexivity.
  - exact NewInMemoryUserStore_ok.
  - reflexivity.
Defined.

(** ** The Authorization header *)

Lemma Split_space_not_nil s : middleware.Split_space s <> [].
Proof.
  destruct s as [|c s]; simpl; [done|].
  destruct (Ascii.eqb c " "); [done|].
  by destruct (middleware.Split_space s).
Qed.

Lemma Join_space_cons piece rest :
  rest <> [] -> Join_space (piece :: rest) = (piece ++ " " ++ Join_space rest)%string.
Proof. by destruct rest. Qed.

Lemma Join_Split_space s : Join_space (middleware.Split_space s) = s.
Proof.
  induction s as [|c s IH]; [done|]. simpl.
  destruct (Ascii.eqb_spec c " ") as [->|Hc].
  - rewrite Join_space_cons by apply Split_space_not_nil. simpl. by rewrite IH.
  - pose proof (Split_space_not_nil s) as Hne.
    destruct (middleware.Split_space s) as [|piece [|p2 rest]]; [done| |].
    + simpl in *. by rewrite IH.
    + change (Join_space (String c piece :: p2 :: rest))
        with (String c (piece ++ " " ++ Join_space (p2 :: rest)))%string.
      f_equal. exact IH.
Qed.

Lemma Split_space_pieces s : Forall (fun p => has_space p = false) (middleware.Split_space s).
Proof.
  induction s as [|c s IH]; simpl; [by constructor|].
  destruct (Ascii.eqb c " ") eqn:Hc; [by constructor|].
  destruct (middleware.Split_space s) as [|piece rest]; [by repeat constructor; simpl; rewrite Hc|].
  apply Forall_cons in IH as [Hp Hrest]. constructor; [|done]. simpl.
  by rewrite Hc, Hp.
Qed.

Lemma Split_space_no_space s :
  has_space s = false -> middleware.Split_space s = [s].
Proof.
  induction s as [|c s IH]; simpl; [done|].
  destruct (Ascii.eqb c " "); [done|]. simpl. intros Hs. by rewrite IH.
Qed.

Lemma Split_space_app a b :
  has_space a = false ->
  middleware.Split_space (a ++ " " ++ b) = a :: middleware.Split_space b.
Proof.
  induction a as [|c a IH]; simpl; [done|].
  destruct (Ascii.eqb c " "); [done|]. simpl. intros Ha. by rewrite IH.
Qed.

(** X14. Splitting on spaces and joining with spaces give the header
    back, and no piece contains a space. The header part of
    [AuthMiddleware] passes a token on exactly when the header is "Bearer",
    one space, and a token without a space (the empty token included); an
    empty header is answered 401 with "Authorization header is required". *)
Theorem Authorization_header_format :
  (forall s, Join_space (middleware.Split_space s) = s
             /\ Forall (fun p => has_space p = false) (middleware.Split_space s))
  /\ (forall authHeader tokenString,
        middleware.Authorization_token authHeader = inr tokenString
        <-> authHeader = ("Bearer " ++ tokenString)%string
            /\ has_space tokenString = false)
  /\ middleware.Authorization_token ""
     = inl (middleware.JSON 401 "Authorization header is required").
Proof.
  split; [|split; [|done]].
  - intros s. split; [apply Join_Split_space | apply Split_space_pieces].
  - intros authHeader tokenString. unfold middleware.Authorization_token. split.
    + destruct (decide (authHeader = ""%string)); [done|].
      pose proof (Join_Split_space authHeader) as Hjoin.
      pose proof (Split_space_pieces authHeader) as Hpieces.
      destruct (middleware.Split_space authHeader) as [|scheme [|tok [|? ?]]];
        try done.
      destruct (decide (scheme = "Bearer"%string)) as [->|]; [|done].
      intros [= ->]. split; [by rewrite <- Hjoin|].
      apply Forall_cons in Hpieces as [_ Hpieces].
      by apply Forall_cons in Hpieces as [Hp _].
    + intros [-> Hns]. rewrite decide_False by done.
      change ("Bearer " ++ tokenString)%string
        with ("Bearer" ++ " " ++ tokenString)%string.
      rewrite Split_space_app by done. rewrite Split_space_no_space by done.
      by rewrite decide_True.
Qed.

Lemma Authorization_header_format_witness :
  middleware.Authorization_token "Bearer abc.def.ghi" = inr "abc.def.ghi"%string.
Proof.
  apply (proj1 (proj2 Authorization_header_format)). split; reflexivity.
Defined.

(** ** The handler of /otp/verify and the token check *)

Section Http.

Variable hash_available : jwt.HMACAlg -> bool.
Variable HMAC : jwt.HMACAlg -> string -> jwt.SigningString -> string.
Variable uuid_String : Z -> string.
Variable uuid_Parse : string -> option Z.
Variable jwtSecret : string.

Let Verify := auth.VerifyOTPAndAuthenticate hash_available HMAC uuid_String jwtSecret.
Let Handler := auth.Handler_VerifyOTP hash_available HMAC uuid_String jwtSecret.
Let AuthMiddleware := middleware.AuthMiddleware hash_available HMAC uuid_Parse.

(** The errors of a call whose check passed. *)
Lemma Verify_passed_errors r env phone code err :
  otp_check_passes r (auth.expired_now env) phone code ->
  (Verify r env phone code).1 = Err err ->
  err = ErrUserRegistration \/ err = ErrJWTGeneration.
Proof.
  intros (stored & Hget & Hcode & Hexp).
  unfold Verify, auth.VerifyOTPAndAuthenticate. rewrite Hget.
  apply String.eqb_eq in Hcode. rewrite Hcode, Hexp. simpl.
  unfold auth.GetUserByPhoneNumber, auth.CreateUser,
    database.GetUserByPhoneNumber, database.CreateUser. simpl.
  destruct (database.phoneIndex (auth.userStore r) !! phone) as [id|]; simpl.
  - destruct (database.users (auth.userStore r) !! id) as [user|]; simpl.
    + destruct (auth.generateJWT _ _ _ _ _ _ _ _) as [tok|e]; simpl;
        [done | intros [= <-]; by right].
    + intros [= <-]. by left.
  - destruct (auth.generateJWT _ _ _ _ _ _ _ _) as [tok|e]; simpl;
      [done | intros [= <-]; by right].
Qed.

(** X15. Status codes of /otp/verify. A request that does not bind is
    answered 400 and nothing changes. A failed OTP check is answered 401
    with the text of [ErrInvalidOTP] and nothing changes. After a passed
    check the answer is 200 with the token of the service, or 500 without
    a token; in both cases the code of the phone number is gone. *)
Theorem Handler_VerifyOTP_status :
  forall r env phone code,
    (forall e, Handler r env (Err e)
               = (middleware.JSON 400 "Invalid request", None, r))
    /\ (~ otp_check_passes r (auth.expired_now env) phone code ->
        Handler r env (Ok (phone, code))
        = (middleware.JSON 401 "invalid or expired OTP", None, r))
    /\ (otp_check_passes r (auth.expired_now env) phone code ->
        let out := Handler r env (Ok (phone, code)) in
        ((exists tok, out.1 = (middleware.JSON 200 "token", Some tok)
                      /\ (Verify r env phone code).1 = Ok tok)
         \/ (exists msg, out.1 = (middleware.JSON 500 msg, None)))
        /\ database.otps (auth.otpStore out.2) !! phone = None).
Proof.
  intros r env phone code. split; [done|]. split.
  - intros Hno. unfold Handler, auth.Handler_VerifyOTP.
    by rewrite (Verify_check_fails hash_available HMAC uuid_String jwtSecret
                  r env phone code Hno).
  - intros Hpass out.
    destruct (Verify_check_passes hash_available HMAC uuid_String jwtSecret
                r env phone code Hpass) as [Hdel _].
    pose proof (Verify_passed_errors r env phone code) as Herrs.
    subst out. unfold Handler, auth.Handler_VerifyOTP. fold Verify.
    fold Verify in Hdel.
    destruct (Verify r env phone code) as [[tok|err] r'] eqn:HV; simpl in *.
    + split; [left; by exists tok|]. rewrite Hdel. apply lookup_delete_eq.
    + assert (Hnot : errors_Is err ErrInvalidOTP = false).
      { destruct (Herrs err Hpass eq_refl) as [-> | ->]; done. }
      rewrite Hnot. simpl. split; [right; by eexists|].
      rewrite Hdel. apply lookup_delete_eq.
Qed.



(** X17. A token that passes [jwt.Parse] but has no string under "sub", or
    a readable "sub" but no string under "phone", makes the middleware
    panic in its type assertion instead of answering 401. *)
Theorem AuthMiddleware_panics_without_claims :
  forall now tok token,
    jwt.Parse hash_available HMAC now tok (middleware.keyFunc jwtSecret)
    = Ok token ->
    ((forall sub, jwt.Payload tok !! "sub"%string <> Some (jwt.ClaimString sub)) ->
       AuthMiddleware jwtSecret now tok = middleware.Panic)
    /\ (forall sub uid,
          jwt.Payload tok !! "sub"%string = Some (jwt.ClaimString sub) ->
          uuid_Parse sub = Some uid ->
          (forall phone, jwt.Payload tok !! "phone"%string
                         <> Some (jwt.ClaimString phone)) ->
          AuthMiddleware jwtSecret now tok = middleware.Panic).
Proof.
  intros now tok token Hparse.
  assert (Htoken : jwt.Valid token = true /\ jwt.Claims token = jwt.Payload tok).
  { unfold jwt.Parse in Hparse.
    destruct (middleware.keyFunc _ _); [|done].
    destruct (jwt.Verify _ _ _ _ _ _); [done|].
    destruct (jwt.Validate _ _); [done|]. by injection Hparse as <-. }
  destruct Htoken as [Hvalid Hclaims].
  unfold AuthMiddleware, middleware.AuthMiddleware. rewrite Hparse, Hvalid, Hclaims.
  split.
  - intros Hsub.
    destruct (jwt.Payload tok !! "sub"%string) as [[sub|]|]; try done.
    by destruct (Hsub sub).
  - intros sub uid -> -> Hphone.
    destruct (jwt.Payload tok !! "phone"%string) as [[phone|]|]; try done.
    by destruct (Hphone phone).
Qed.

End Http.

Lemma Handler_VerifyOTP_status_witness :
  auth.Handler_VerifyOTP sample_hash_available sample_HMAC sample_uuid_String
    sample_secret sample_after_send (sample_verify 30 1)
    (Ok (sample_phone, "000000"%string))
  = (middleware.JSON 401 "invalid or expired OTP", None, sample_after_send).
Proof.
  apply (proj1 (proj2 (Handler_VerifyOTP_status
           sample_hash_available sample_HMAC sample_uuid_String sample_secret
           sample_after_send (sample_verify 30 1) sample_phone "000000"))).
  intros (stored & Hget & Hcode & _).
  vm_compute in Hget. injection Hget as <-. discriminate Hcode.
Defined.


Lemma AuthMiddleware_panics_without_claims_witness :
  middleware.AuthMiddleware sample_hash_available sample_HMAC sample_uuid_Parse
    sample_secret 0
    (jwt.mkSignedToken (jwt.SigningMethodHMAC jwt.HS256) ∅ "mac:default-jwt-secret")
  = middleware.Panic.
Proof.
  refine (proj1 (AuthMiddleware_panics_without_claims
            sample_hash_available sample_HMAC sample_uuid_Parse sample_secret 0
            (jwt.mkSignedToken (jwt.SigningMethodHMAC jwt.HS256) ∅
               "mac:default-jwt-secret")
            (jwt.mkToken (jwt.SigningMethodHMAC jwt.HS256) ∅ true) _) _).
  - vm_compute. reflexivity.
  - intros sub. simpl. by rewrite lookup_empty.
Defined.

(** ** A refused call does not count *)

(** X18. A call that the middleware limiter refuses is not recorded: every
    later call, for any key, is answered as if the refused call had not
    been made, and leaves the same instants for its key. *)
Theorem refused_call_does_not_count :
  forall r key t key' t',
    (middleware.Allow r t key).1 = false ->
    t <= t' ->
    (middleware.Allow (middleware.Allow r t key).2 t' key').1
    = (middleware.Allow r t' key').1
    /\ middleware.requests
         (middleware.Allow (middleware.Allow r t key).2 t' key').2 !! key'
       = middleware.requests (middleware.Allow r t' key').2 !! key'.
Proof.
  intros r key t key' t' Hrej Hle.
  pose proof (Allow_config r key t) as [HN HW].
  assert (Hrec : middleware.recent (middleware.Allow r t key).2 t'
                   (default [] (middleware.requests (middleware.Allow r t key).2
                                !! key'))
                 = middleware.recent r t'
                     (default [] (middleware.requests r !! key'))).
  { rewrite (recent_ext _ r) by done.
    destruct (decide (key = key')) as [<-|Hne].
    - rewrite Allow_snd_key. cbv zeta. rewrite Hrej. simpl.
      by apply recent_recent.
    - by rewrite (Allow_snd_other r key t key' Hne). }
  assert (Hfst : (middleware.Allow (middleware.Allow r t key).2 t' key').1
                 = (middleware.Allow r t' key').1).
  { rewrite !Allow_fst, Hrec, HN. done. }
  split; [done|]. rewrite !Allow_snd_key. cbv zeta. by rewrite Hrec, Hfst.
Qed.

Lemma refused_call_does_not_count_witness :
  let r := (Allow_all (middleware.NewInMemoryRateLimiter 1 (2 * time.Minute))
                      [(sample_phone, 0)]).2 in
  (middleware.Allow (middleware.Allow r (60 * time.Second) sample_phone).2
                    (121 * time.Second) sample_phone).1
  = (middleware.Allow r (121 * time.Second) sample_phone).1.
Proof.
  intros r.
  apply (refused_call_does_not_count r sample_phone (60 * time.Second)
           sample_phone (121 * time.Second)).
  - vm_compute. reflexivity.
  - vm_compute. discriminate.
Defined.

(** ** Codes read back *)

Lemma digits_value_app ds c :
  digits_value (ds ++ [c]) = 10 * digits_value ds + (Z.of_N (N_of_ascii c) - 48).
Proof. unfold digits_value. by rewrite fold_left_app. Qed.

Lemma digit_value d : 0 <= d <= 9 -> Z.of_N (N_of_ascii (fmt.digit d)) - 48 = d.
Proof.
  intros Hd. unfold fmt.digit. rewrite N_ascii_embedding by lia. lia.
Qed.

Lemma decimal_value fuel : forall n,
  0 <= n < 10 ^ Z.of_nat fuel -> digits_value (fmt.decimal fuel n) = n.
Proof.
  induction fuel as [|fuel IH]; intros n Hn.
  - simpl in Hn. assert (n = 0) as -> by lia. done.
  - simpl fmt.decimal. destruct (Z.ltb_spec n 10).
    + unfold digits_value. simpl. rewrite digit_value by lia. lia.
    + rewrite digits_value_app, digit_value
        by (pose proof (Z.mod_pos_bound n 10); lia).
      rewrite IH.
      * pose proof (Z.div_mod n 10). lia.
      * rewrite Nat2Z.inj_succ, Z.pow_succ_r in Hn by lia.
        split; [apply Z.div_pos; lia|]. apply Z.div_lt_upper_bound; lia.
Qed.

Lemma zero_pad_value width ds :
  digits_value (fmt.zero_pad width ds) = digits_value ds.
Proof.
  unfold fmt.zero_pad. generalize (width - length ds)%nat. intros k.
  unfold digits_value. rewrite fold_left_app. f_equal.
  induction k as [|k IH]; [done|]. simpl. exact IH.
Qed.

(** X19. A code reads back as its number: the digits that [%06d] prints
    for a number from 0 to 999999 have that number as their value, so two
    different code numbers never print the same code, and the code that
    [GenerateOTP] returns for three bytes reads back as the number the
    bytes were folded into. *)
Theorem Sprintf_06d_round_trip :
  (forall n, 0 <= n < 1000000 ->
     digits_value (list_ascii_of_string (fmt.Sprintf_06d n)) = n)
  /\ (forall n m, 0 <= n < 1000000 -> 0 <= m < 1000000 ->
        fmt.Sprintf_06d n = fmt.Sprintf_06d m -> n = m)
  /\ (forall b0 b1 b2,
        digits_value (list_ascii_of_string (otp.GenerateOTP (Ok (b0, b1, b2))))
        = otp.code_number b0 b1 b2).
Proof.
  assert (Hrt : forall n, 0 <= n < 1000000 ->
            digits_value (list_ascii_of_string (fmt.Sprintf_06d n)) = n).
  { intros n Hn. unfold fmt.Sprintf_06d.
    destruct (Z.ltb_spec n 0); [lia|].
    rewrite list_ascii_of_string_of_list_ascii, zero_pad_value.
    apply decimal_value. simpl. lia. }
  split; [done|]. split.
  - intros n m Hn Hm Heq. rewrite <- (Hrt n Hn), <- (Hrt m Hm). by rewrite Heq.
  - intros b0 b1 b2. simpl. apply Hrt. rewrite code_number_value.
    apply Z.mod_pos_bound. lia.
Qed.

Lemma Sprintf_06d_round_trip_witness :
  digits_value (list_ascii_of_string (fmt.Sprintf_06d 258)) = 258.
Proof. apply (proj1 Sprintf_06d_round_trip). lia. Defined.

(** ** Answers of POST /otp/send *)

(** X21. Status codes of the wired /otp/send route. A request that does
    not bind is answered 400 and changes nothing. A request refused by the
    middleware is answered 429 and leaves the stored codes alone. A
    request is answered 200 exactly when the limiter admits it twice, in
    the middleware and then in the service, and then the generated code is
    stored for the phone number; in every other case the answer is 429.
    The in-memory service never answers 500. *)
Theorem POST_otp_send_status :
  forall r mw_now env phone,
    let l := auth.rateLimiter r in
    let first := middleware.Allow l mw_now phone in
    let second := middleware.Allow first.2 (auth.allow_now env) phone in
    let out := auth.POST_otp_send r mw_now env (Ok phone) in
    (forall e, auth.POST_otp_send r mw_now env (Err e)
               = (middleware.JSON 400 "Invalid request", r))
    /\ auth.userStore out.2 = auth.userStore r
    /\ (first.1 = false ->
        out.1 = middleware.JSON 429
                  "You have made too many requests. Please try again after rate limit time."
        /\ auth.otpStore out.2 = auth.otpStore r)
    /\ (first.1 = true -> second.1 = false ->
        out.1 = middleware.JSON 429 "rate limit exceeded"
        /\ auth.otpStore out.2 = auth.otpStore r)
    /\ (first.1 = true -> second.1 = true ->
        out.1 = middleware.JSON 200 "OTP sent successfully (check console)"
        /\ auth.GetOTP out.2 phone
           = Ok (model.mkOTP (auth.otp_id env) phone
                   (otp.GenerateOTP (auth.rand_read env)) (auth.store_now env)
                   (auth.expiry_now env + 120 * time.Second))).
Proof.
  intros r mw_now env phone l first second out.
  split; [intros e; by destruct r|].
  subst out second first.
  unfold auth.POST_otp_send, middleware.OTPRateLimiter. fold l.
  destruct (middleware.Allow l mw_now phone) as [ok1 l1]. simpl.
  destruct ok1; simpl.
  - unfold auth.Handler_SendOTP, auth.SendOTP, auth.AllowOTPRate. simpl.
    destruct (middleware.Allow l1 (auth.allow_now env) phone) as [ok2 l2].
    destruct ok2; simpl.
    + split; [done|]. split; [done|]. split; [done|]. intros _ _.
      split; [done|]. unfold auth.GetOTP, database.GetOTP. simpl.
      by rewrite lookup_insert_eq.
    + split; [done|]. split; [done|]. split; [|done]. by intros _ _.
  - split; [done|]. split; [by intros _|]. split; done.
Qed.

Lemma POST_otp_send_status_witness :
  (auth.POST_otp_send main.authRepo 0 (sample_send 1) (Ok sample_phone)).1
  = middleware.JSON 200 "OTP sent successfully (check console)".
Proof.
  refine (proj1 (proj2 (proj2 (proj2 (proj2 (POST_otp_send_status
            main.authRepo 0 (sample_send 1) sample_phone)))) _ _)).
  - reflexivity.
  - reflexivity.
Defined.
